(** * The trigger decision core of nbarros/trigger

    A shallow embedding of
    - [plugins/ModuleLevelTrigger.cpp] (the decision loop, the lifecycle
      commands and the inhibit callback),
    - [plugins/TimingTriggerCandidateMaker.cpp] (timing datum to candidate),
    - [src/trigger/BufferManager.hpp] (the ordering of the TPSet buffer),
    together with the properties the specification states about them.

    Conventions.
    - Integers are [Z].  Operations whose width is visible in the sources
      ([static_cast<uint16_t>], [& 0xff], [<< 8]) are written out with
      [Z.modulo], [Z.land] and [Z.shiftl]; arithmetic on [timestamp_t]
      wraps at 64 bits.  The members of [ModuleLevelTrigger] are declared
      in a header that is not among the sources; the monitoring counters
      and the trigger number only ever count up by one from zero and are
      kept as plain integers (lemma [counters_bounded]: after [n] events
      of a run each of them is at most [n]).
    - The decision loop is modelled at two grains.  In
      [ModuleLevelTrigger.step] a pass of the decision thread through its
      loop is one event, and the commands and the inhibit callback, which
      run on other threads, are events of their own between passes: that
      is a pass during which no other thread stores to a flag.  In
      [Interleaving] every load of a flag and every increment of a counter
      is a step of its own, and the commands and the callback may land
      between any two of them; a pass of the first model is a pass of the
      second that nothing interrupts (lemma [uninterrupted_pass]).
    - Whatever the code does to the outside world (decisions handed to the
      sender, warnings, errors) is recorded in an explicit [World].
    - The clock read inside the livetime counter is an explicit argument
      [now] of every operation that reads it. *)

From stdpp Require Import base option list gmap.
From Stdlib Require Import ZArith Lia Sorted.

Local Open Scope Z_scope.

(** ** Fixed-width helpers *)

Definition wrap16 (x : Z) : Z := x mod 2 ^ 16.
Definition wrap64 (x : Z) : Z := x mod 2 ^ 64.

(** ** LivetimeCounter *)

Module LivetimeCounter.

(** [LivetimeCounter::State], as the plugin names its enumerators. *)
Inductive State : Set := kLive | kPaused | kDead.

Definition State_eqb (a b : State) : bool :=
  match a, b with
  | kLive, kLive | kPaused, kPaused | kDead, kDead => true
  | _, _ => false
  end.

(** Modelled from the spec: [LivetimeCounter.hpp] and [LivetimeCounter.cpp]
    are not among the sources; only the calls [LivetimeCounter(state)],
    [set_state] and [get_time] are.  The record is the spec's GateState:
    the current state, the time it was entered and, per state, the
    duration already accumulated (the open interval excluded). *)
Record t : Set := mk {
  current_state : State;
  entered_at : Z;
  acc_live : Z;
  acc_paused : Z;
  acc_dead : Z
}.

(** [accumulated[state]] *)
Definition accumulated (lc : t) (s : State) : Z :=
  match s with
  | kLive => acc_live lc
  | kPaused => acc_paused lc
  | kDead => acc_dead lc
  end.

(** The three accumulators together. *)
Definition accumulated_total (lc : t) : Z :=
  accumulated lc kLive + accumulated lc kPaused + accumulated lc kDead.

(** [accumulated[s] += d] *)
Definition add_accumulated (s : State) (d : Z) (lc : t) : t :=
  match s with
  | kLive => mk (current_state lc) (entered_at lc) (acc_live lc + d) (acc_paused lc) (acc_dead lc)
  | kPaused => mk (current_state lc) (entered_at lc) (acc_live lc) (acc_paused lc + d) (acc_dead lc)
  | kDead => mk (current_state lc) (entered_at lc) (acc_live lc) (acc_paused lc) (acc_dead lc + d)
  end.

(** Modelled from the spec: the constructor, called at run start; the
    counter is created in [state] at time [now] with empty accumulators. *)
Definition create (state : State) (now : Z) : t := mk state now 0 0 0.

(** Modelled from the spec: "On every transition: compute
    [now - entered_at], add to [accumulated[current_state]], set
    [current_state] to target, set [entered_at = now]." *)
Definition set_state (target : State) (now : Z) (lc : t) : t :=
  let lc' := add_accumulated (current_state lc) (now - entered_at lc) lc in
  mk target now (acc_live lc') (acc_paused lc') (acc_dead lc').

(** Modelled from the spec: "Query [elapsed(state)]: returns
    [accumulated[state]] plus the open interval if
    [state == current_state]." *)
Definition get_time (s : State) (now : Z) (lc : t) : Z :=
  accumulated lc s + (if State_eqb s (current_state lc) then now - entered_at lc else 0).

(** A history of transitions, oldest first: the target state and the clock
    reading of each [set_state] call. *)
Definition transitions (ts : list (State * Z)) (lc : t) : t :=
  fold_left (fun lc' tr => set_state (fst tr) (snd tr) lc') ts lc.

End LivetimeCounter.

(** ** Messages ([dfmessages], [triggeralgs]) *)

(** [dfmessages::GeoID]: a configured link. *)
Record GeoID : Set := mkGeoID {
  system_type : Z;
  region : Z;
  element : Z
}.

Module ComponentRequest.
Record t : Set := mk {
  component : GeoID;
  window_begin : Z;
  window_end : Z
}.
End ComponentRequest.

(** [dfmessages::ReadoutType]; the plugin only ever writes [kLocalized]. *)
Inductive ReadoutType : Set := kLocalized.

Module TriggerDecision.
Record t : Set := mk {
  trigger_number : Z;
  run_number : Z;
  trigger_timestamp : Z;
  trigger_type : Z;
  readout_type : ReadoutType;
  components : list ComponentRequest.t
}.
End TriggerDecision.

Module TriggerInhibit.
Record t : Set := mk {
  busy : bool;
  run_number : Z
}.
End TriggerInhibit.

Module TriggerCandidate.

(** Modelled from the spec: the enumeration [TriggerCandidate::Type] lives
    in triggeralgs; the spec asks for "a closed tagged variant
    {Timing, Other(code)}".  [kOther code] is any enumerator but
    [kTiming], [code] being its integer value [(int)tc.type]. *)
Inductive Type_ : Set :=
| kTiming
| kOther (code : Z).

Record t : Set := mk {
  time_start : Z;
  time_end : Z;
  time_candidate : Z;
  detid : Z;
  type : Type_;
  algorithm : Z;
  version : Z;
  ta_list : list Z
}.
End TriggerCandidate.

(** [triggeralgs::TimeStampedData] *)
Module TimeStampedData.
Record t : Set := mk {
  signal_type : Z;
  time_stamp : Z;
  counter : Z
}.
End TimeStampedData.

(** ** TimingTriggerCandidateMaker *)

Module TimingTriggerCandidateMaker.

(** One entry [s0], [s1], [s2] of the module's configuration. *)
Record SignalConf : Set := mkSignalConf {
  signal_type : Z;
  time_before : Z;
  time_after : Z
}.

Record Conf : Set := mkConf {
  s0 : SignalConf;
  s1 : SignalConf;
  s2 : SignalConf
}.

(** [m_detid_offsets_map]: signal type to (time before, time after). *)
Abbreviation offsets_map := (gmap Z (Z * Z)).

(** [m_detid_offsets_map[k]]: [std::map::operator[]] never fails; a key
    that is absent is inserted with a value-initialised pair. *)
Definition subscript (k : Z) (m : offsets_map) : (Z * Z) * offsets_map :=
  match m !! k with
  | Some v => (v, m)
  | None => ((0, 0), <[k := (0, 0)]> m)
  end.

(** The assignment [m_detid_offsets_map[k] = v]. *)
Definition assign (k : Z) (v : Z * Z) (m : offsets_map) : offsets_map :=
  <[k := v]> m.

Definition do_conf (params : Conf) (m : offsets_map) : offsets_map :=
  let m := assign (signal_type (s0 params)) (time_before (s0 params), time_after (s0 params)) m in
  let m := assign (signal_type (s1 params)) (time_before (s1 params), time_after (s1 params)) m in
  assign (signal_type (s2 params)) (time_before (s2 params), time_after (s2 params)) m.

(** [TimeStampedDataToTriggerCandidate].  Nothing in the [try] block can
    raise an [ers::Issue] (the two lookups are [operator[]]), so the
    conversion always returns a candidate; the map it leaves behind is
    returned with it. *)
Definition TimeStampedDataToTriggerCandidate
    (data : TimeStampedData.t) (m : offsets_map) : TriggerCandidate.t * offsets_map :=
  let '(o1, m) := subscript (TimeStampedData.signal_type data) m in
  let time_start := wrap64 (TimeStampedData.time_stamp data - fst o1) in
  let '(o2, m) := subscript (TimeStampedData.signal_type data) m in
  let time_end := wrap64 (TimeStampedData.time_stamp data + snd o2) in
  (TriggerCandidate.mk
     time_start
     time_end
     (TimeStampedData.time_stamp data)
     (wrap16 (TimeStampedData.signal_type data))
     TriggerCandidate.kTiming
     0
     0
     [],
   m).

End TimingTriggerCandidateMaker.

(** ** ModuleLevelTrigger *)

Module ModuleLevelTrigger.

Import TriggerCandidate.

(** The members of the class that the modelled functions read or write.
    [m_livetime_counter] is a [std::unique_ptr]: [None] is the null
    pointer. *)
Record t : Set := mk {
  m_last_trigger_number : Z;
  m_run_number : Z;
  m_links : list GeoID;
  m_hsi_passthrough : bool;
  m_trigger_type_shifted : Z;
  m_configured_flag : bool;
  m_paused : bool;
  m_running_flag : bool;
  m_dfo_is_busy : bool;
  m_livetime_counter : option LivetimeCounter.t;
  m_tc_received_count : Z;
  m_td_sent_count : Z;
  m_td_inhibited_count : Z;
  m_td_paused_count : Z;
  m_td_total_count : Z;
  m_td_queue_timeout_expired_err_count : Z;
  m_lc_kLive : Z;
  m_lc_kPaused : Z;
  m_lc_kDead : Z;
  m_lc_kLive_count : Z;
  m_lc_kPaused_count : Z;
  m_lc_kDead_count : Z;
  m_lc_deadtime : Z
}.

(** Field assignments. *)
Definition set_last_trigger_number (v : Z) (m : t) : t :=
  let 'mk _ rn ls hp ts cf pa ru bu lc rc sc ic pc tc ec kl kp kd klc kpc kdc dt := m in
  mk v rn ls hp ts cf pa ru bu lc rc sc ic pc tc ec kl kp kd klc kpc kdc dt.
Definition set_run_number (v : Z) (m : t) : t :=
  let 'mk tn _ ls hp ts cf pa ru bu lc rc sc ic pc tc ec kl kp kd klc kpc kdc dt := m in
  mk tn v ls hp ts cf pa ru bu lc rc sc ic pc tc ec kl kp kd klc kpc kdc dt.
Definition set_links (v : list GeoID) (m : t) : t :=
  let 'mk tn rn _ hp ts cf pa ru bu lc rc sc ic pc tc ec kl kp kd klc kpc kdc dt := m in
  mk tn rn v hp ts cf pa ru bu lc rc sc ic pc tc ec kl kp kd klc kpc kdc dt.
Definition set_hsi_passthrough (v : bool) (m : t) : t :=
  let 'mk tn rn ls _ ts cf pa ru bu lc rc sc ic pc tc ec kl kp kd klc kpc kdc dt := m in
  mk tn rn ls v ts cf pa ru bu lc rc sc ic pc tc ec kl kp kd klc kpc kdc dt.
Definition set_trigger_type_shifted (v : Z) (m : t) : t :=
  let 'mk tn rn ls hp _ cf pa ru bu lc rc sc ic pc tc ec kl kp kd klc kpc kdc dt := m in
  mk tn rn ls hp v cf pa ru bu lc rc sc ic pc tc ec kl kp kd klc kpc kdc dt.
Definition set_configured_flag (v : bool) (m : t) : t :=
  let 'mk tn rn ls hp ts _ pa ru bu lc rc sc ic pc tc ec kl kp kd klc kpc kdc dt := m in
  mk tn rn ls hp ts v pa ru bu lc rc sc ic pc tc ec kl kp kd klc kpc kdc dt.
Definition set_paused (v : bool) (m : t) : t :=
  let 'mk tn rn ls hp ts cf _ ru bu lc rc sc ic pc tc ec kl kp kd klc kpc kdc dt := m in
  mk tn rn ls hp ts cf v ru bu lc rc sc ic pc tc ec kl kp kd klc kpc kdc dt.
Definition set_running_flag (v : bool) (m : t) : t :=
  let 'mk tn rn ls hp ts cf pa _ bu lc rc sc ic pc tc ec kl kp kd klc kpc kdc dt := m in
  mk tn rn ls hp ts cf pa v bu lc rc sc ic pc tc ec kl kp kd klc kpc kdc dt.
Definition set_dfo_is_busy (v : bool) (m : t) : t :=
  let 'mk tn rn ls hp ts cf pa ru _ lc rc sc ic pc tc ec kl kp kd klc kpc kdc dt := m in
  mk tn rn ls hp ts cf pa ru v lc rc sc ic pc tc ec kl kp kd klc kpc kdc dt.
Definition set_livetime_counter (v : option LivetimeCounter.t) (m : t) : t :=
  let 'mk tn rn ls hp ts cf pa ru bu _ rc sc ic pc tc ec kl kp kd klc kpc kdc dt := m in
  mk tn rn ls hp ts cf pa ru bu v rc sc ic pc tc ec kl kp kd klc kpc kdc dt.
Definition set_tc_received_count (v : Z) (m : t) : t :=
  let 'mk tn rn ls hp ts cf pa ru bu lc _ sc ic pc tc ec kl kp kd klc kpc kdc dt := m in
  mk tn rn ls hp ts cf pa ru bu lc v sc ic pc tc ec kl kp kd klc kpc kdc dt.
Definition set_td_sent_count (v : Z) (m : t) : t :=
  let 'mk tn rn ls hp ts cf pa ru bu lc rc _ ic pc tc ec kl kp kd klc kpc kdc dt := m in
  mk tn rn ls hp ts cf pa ru bu lc rc v ic pc tc ec kl kp kd klc kpc kdc dt.
Definition set_td_inhibited_count (v : Z) (m : t) : t :=
  let 'mk tn rn ls hp ts cf pa ru bu lc rc sc _ pc tc ec kl kp kd klc kpc kdc dt := m in
  mk tn rn ls hp ts cf pa ru bu lc rc sc v pc tc ec kl kp kd klc kpc kdc dt.
Definition set_td_paused_count (v : Z) (m : t) : t :=
  let 'mk tn rn ls hp ts cf pa ru bu lc rc sc ic _ tc ec kl kp kd klc kpc kdc dt := m in
  mk tn rn ls hp ts cf pa ru bu lc rc sc ic v tc ec kl kp kd klc kpc kdc dt.
Definition set_td_total_count (v : Z) (m : t) : t :=
  let 'mk tn rn ls hp ts cf pa ru bu lc rc sc ic pc _ ec kl kp kd klc kpc kdc dt := m in
  mk tn rn ls hp ts cf pa ru bu lc rc sc ic pc v ec kl kp kd klc kpc kdc dt.
Definition set_td_queue_timeout_expired_err_count (v : Z) (m : t) : t :=
  let 'mk tn rn ls hp ts cf pa ru bu lc rc sc ic pc tc _ kl kp kd klc kpc kdc dt := m in
  mk tn rn ls hp ts cf pa ru bu lc rc sc ic pc tc v kl kp kd klc kpc kdc dt.
Definition set_lc_kLive (v : Z) (m : t) : t :=
  let 'mk tn rn ls hp ts cf pa ru bu lc rc sc ic pc tc ec _ kp kd klc kpc kdc dt := m in
  mk tn rn ls hp ts cf pa ru bu lc rc sc ic pc tc ec v kp kd klc kpc kdc dt.
Definition set_lc_kPaused (v : Z) (m : t) : t :=
  let 'mk tn rn ls hp ts cf pa ru bu lc rc sc ic pc tc ec kl _ kd klc kpc kdc dt := m in
  mk tn rn ls hp ts cf pa ru bu lc rc sc ic pc tc ec kl v kd klc kpc kdc dt.
Definition set_lc_kDead (v : Z) (m : t) : t :=
  let 'mk tn rn ls hp ts cf pa ru bu lc rc sc ic pc tc ec kl kp _ klc kpc kdc dt := m in
  mk tn rn ls hp ts cf pa ru bu lc rc sc ic pc tc ec kl kp v klc kpc kdc dt.
Definition set_lc_kLive_count (v : Z) (m : t) : t :=
  let 'mk tn rn ls hp ts cf pa ru bu lc rc sc ic pc tc ec kl kp kd _ kpc kdc dt := m in
  mk tn rn ls hp ts cf pa ru bu lc rc sc ic pc tc ec kl kp kd v kpc kdc dt.
Definition set_lc_kPaused_count (v : Z) (m : t) : t :=
  let 'mk tn rn ls hp ts cf pa ru bu lc rc sc ic pc tc ec kl kp kd klc _ kdc dt := m in
  mk tn rn ls hp ts cf pa ru bu lc rc sc ic pc tc ec kl kp kd klc v kdc dt.
Definition set_lc_kDead_count (v : Z) (m : t) : t :=
  let 'mk tn rn ls hp ts cf pa ru bu lc rc sc ic pc tc ec kl kp kd klc kpc _ dt := m in
  mk tn rn ls hp ts cf pa ru bu lc rc sc ic pc tc ec kl kp kd klc kpc v dt.
Definition set_lc_deadtime (v : Z) (m : t) : t :=
  let 'mk tn rn ls hp ts cf pa ru bu lc rc sc ic pc tc ec kl kp kd klc kpc kdc _ := m in
  mk tn rn ls hp ts cf pa ru bu lc rc sc ic pc tc ec kl kp kd klc kpc kdc v.

(** The trigger number and the counters of the decision loop. *)
Definition counters (m : t) : list Z :=
  [m_last_trigger_number m; m_tc_received_count m; m_td_sent_count m;
   m_td_inhibited_count m; m_td_paused_count m; m_td_total_count m].

(** What [do_configure] and [do_start] fix for the run. *)
Definition configuration (m : t) : Z * list GeoID * bool * bool :=
  (m_run_number m, m_links m, m_hsi_passthrough m, m_configured_flag m).

(** *** The world around the module

    [sends] is the log of the calls [td_sender->send(decision, 1ms)],
    oldest first, each with its outcome: [true] when the call returned,
    [false] when it threw an [ers::Issue] (send timeout, transport error).
    [warnings] collects the run numbers of the [TriggerInhibited] warnings,
    [errors] the timestamps of the candidates whose send failed
    ([ers::error]).  [loop_exited] tells whether the thread running
    [send_trigger_decisions] has left its [while (true)],
    [thread_returned] whether it has returned from the function. *)
Record World : Set := mkWorld {
  mlt : t;
  sends : list (TriggerDecision.t * bool);
  warnings : list Z;
  errors : list Z;
  loop_exited : bool;
  thread_returned : bool
}.

Definition set_mlt (m : t) (w : World) : World :=
  mkWorld m (sends w) (warnings w) (errors w) (loop_exited w) (thread_returned w).
Definition log_send (d : TriggerDecision.t) (ok : bool) (w : World) : World :=
  mkWorld (mlt w) (sends w ++ [(d, ok)]) (warnings w) (errors w) (loop_exited w)
    (thread_returned w).
Definition log_warning (run : Z) (w : World) : World :=
  mkWorld (mlt w) (sends w) (warnings w ++ [run]) (errors w) (loop_exited w)
    (thread_returned w).
Definition log_error (ts : Z) (w : World) : World :=
  mkWorld (mlt w) (sends w) (warnings w) (errors w ++ [ts]) (loop_exited w)
    (thread_returned w).
Definition set_loop_exited (b : bool) (w : World) : World :=
  mkWorld (mlt w) (sends w) (warnings w) (errors w) b (thread_returned w).
Definition set_thread_returned (b : bool) (w : World) : World :=
  mkWorld (mlt w) (sends w) (warnings w) (errors w) (loop_exited w) b.

(** The decisions whose send succeeded, in the order they were sent. *)
Definition sent (w : World) : list TriggerDecision.t :=
  map fst (filter (fun s => snd s = true) (sends w)).

(** Every decision handed to the sender, delivered or not. *)
Definition attempted (w : World) : list TriggerDecision.t :=
  map fst (sends w).

(** *** Construction and lifecycle commands *)

(** The constructor: trigger and run number 0, null livetime counter;
    the members it does not name are taken at their zero values. *)
Definition ModuleLevelTrigger : t :=
  mk 0 0 [] false 0 false false false false None 0 0 0 0 0 0 0 0 0 0 0 0 0.

(** The parameters [do_configure] reads; the link's system string is
    already converted by [string_to_system_type]. *)
Record ConfParams : Set := mkConfParams {
  links : list GeoID;
  hsi_trigger_type_passthrough : bool
}.

Definition do_configure (params : ConfParams) (m : t) : t :=
  let m := set_links [] m in
  let m := fold_left (fun m link => set_links (m_links m ++ [link]) m) (links params) m in
  let m := set_hsi_passthrough (hsi_trigger_type_passthrough params) m in
  set_configured_flag true m.

Definition do_scrap (m : t) : t :=
  set_configured_flag false (set_links [] m).

Definition do_pause (now : Z) (m : t) : option t :=
  let m := set_paused true m in
  lc ← m_livetime_counter m;
  Some (set_livetime_counter (Some (LivetimeCounter.set_state LivetimeCounter.kPaused now lc)) m).

Definition do_resume (now : Z) (m : t) : option t :=
  lc ← m_livetime_counter m;
  let m := set_livetime_counter (Some (LivetimeCounter.set_state LivetimeCounter.kLive now lc)) m in
  Some (set_paused false m).

(** [dfo_busy_callback]: the callback registered on the inhibit receiver. *)
Definition dfo_busy_callback (now : Z) (inhibit : TriggerInhibit.t) (m : t) : option t :=
  if TriggerInhibit.run_number inhibit =? m_run_number m then
    let m := set_dfo_is_busy (TriggerInhibit.busy inhibit) m in
    lc ← m_livetime_counter m;
    Some (set_livetime_counter (Some (LivetimeCounter.set_state LivetimeCounter.kDead now lc)) m)
  else Some m.

(** The state the livetime counter is in, if there is a counter. *)
Definition gate_state (m : t) : option LivetimeCounter.State :=
  LivetimeCounter.current_state <$> m_livetime_counter m.

(** *** create_decision *)

(** The loop [for (auto link : m_links) { ...; components.push_back(request); }] *)
Definition push_requests (tc : TriggerCandidate.t) (links : list GeoID)
    (components : list ComponentRequest.t) : list ComponentRequest.t :=
  fold_left
    (fun components link =>
       components ++ [ComponentRequest.mk link (time_start tc) (time_end tc)])
    links components.

(** [create_decision]; it also writes the member [m_trigger_type_shifted],
    so the module is returned with the decision. *)
Definition create_decision (tc : TriggerCandidate.t) (m : t) : TriggerDecision.t * t :=
  let trigger_number := m_last_trigger_number m + 1 in
  let run_number := m_run_number m in
  let trigger_timestamp := time_candidate tc in
  let '(trigger_type, m) :=
    if m_hsi_passthrough m then
      match type tc with
      | kTiming => (Z.land (detid tc) 255, m)
      | kOther code =>
          let m := set_trigger_type_shifted (Z.shiftl code 8) m in
          (m_trigger_type_shifted m, m)
      end
    else (1, m) in
  (TriggerDecision.mk trigger_number run_number trigger_timestamp trigger_type
     kLocalized (push_requests tc (m_links m) []),
   m).

(** *** do_start and the decision thread *)

(** [do_start], up to the creation of the thread; [run] is the run number
    of the start command, [now] the clock the new counter reads. *)
Definition do_start (run : Z) (now : Z) (m : t) : t :=
  let m := set_run_number run m in
  let m := set_paused true m in
  let m := set_running_flag true m in
  let m := set_dfo_is_busy false m in
  set_livetime_counter (Some (LivetimeCounter.create LivetimeCounter.kPaused now)) m.

(** The first statements of [send_trigger_decisions], before the loop. *)
Definition send_trigger_decisions_prologue (m : t) : t :=
  let m := set_last_trigger_number 0 m in
  let m := set_tc_received_count 0 m in
  let m := set_td_sent_count 0 m in
  let m := set_td_inhibited_count 0 m in
  let m := set_td_paused_count 0 m in
  let m := set_td_total_count 0 m in
  let m := set_lc_kLive 0 m in
  let m := set_lc_kPaused 0 m in
  set_lc_kDead 0 m.

(** The statements of [send_trigger_decisions] after the loop: the
    livetime counter is queried five times, for Live, Paused, Dead and then
    Dead and Paused again; [t1] to [t5] are the clock readings of the five
    queries.  Nothing is handed to the sender here. *)
Definition send_trigger_decisions_epilogue (t1 t2 t3 t4 t5 : Z) (m : t) : option t :=
  lc ← m_livetime_counter m;
  let m := set_lc_kLive_count (LivetimeCounter.get_time LivetimeCounter.kLive t1 lc) m in
  let m := set_lc_kPaused_count (LivetimeCounter.get_time LivetimeCounter.kPaused t2 lc) m in
  let m := set_lc_kDead_count (LivetimeCounter.get_time LivetimeCounter.kDead t3 lc) m in
  let m := set_lc_kLive (m_lc_kLive_count m) m in
  let m := set_lc_kPaused (m_lc_kPaused_count m) m in
  let m := set_lc_kDead (m_lc_kDead_count m) m in
  Some (set_lc_deadtime
          (LivetimeCounter.get_time LivetimeCounter.kDead t4 lc
           + LivetimeCounter.get_time LivetimeCounter.kPaused t5 lc) m).

(** [do_stop] after [m_send_trigger_decisions_thread.join()] has returned:
    the total dead time is read (clock readings [t1], [t2]) and the
    livetime counter is released.  The join returns for the thread of the
    run only: on a thread already joined it throws, so a second [do_stop]
    in a row does not get here. *)
Definition do_stop_after_join (t1 t2 : Z) (m : t) : option t :=
  lc ← m_livetime_counter m;
  let m := set_lc_deadtime
             (LivetimeCounter.get_time LivetimeCounter.kDead t1 lc
              + LivetimeCounter.get_time LivetimeCounter.kPaused t2 lc) m in
  Some (set_livetime_counter None m).

(** How a pass through the body of [while (true)] ends: [break], or back
    to the top ([continue], or falling off the end of the body). *)
Inductive LoopCtl : Set := Break | Continue.

(** One pass through the body of [while (true)], when no other thread
    stores to a flag while it runs: the loads of [m_paused] in the [if] and
    in the [else if] and the load of [m_dfo_is_busy] all see the flags of
    [w].  [poll] is what [try_receive(100ms)] returned; [send_ok] is the
    outcome of the send, should this pass attempt one.  The passes another
    thread interrupts are those of [Interleaving.tick]. *)
Definition loop_body (poll : option TriggerCandidate.t) (send_ok : bool)
    (w : World) : World * LoopCtl :=
  match poll with
  | None =>
      if negb (m_running_flag (mlt w)) then (w, Break) else (w, Continue)
  | Some tc =>
      let w := set_mlt (set_tc_received_count (m_tc_received_count (mlt w) + 1) (mlt w)) w in
      let w :=
        if negb (m_paused (mlt w)) && negb (m_dfo_is_busy (mlt w)) then
          let '(decision, m) := create_decision tc (mlt w) in
          let w := set_mlt m w in
          let w := log_send decision send_ok w in
          if send_ok then
            let w := set_mlt (set_td_sent_count (m_td_sent_count (mlt w) + 1) (mlt w)) w in
            set_mlt (set_last_trigger_number (m_last_trigger_number (mlt w) + 1) (mlt w)) w
          else
            let w := log_error (time_candidate tc) w in
            set_mlt (set_td_queue_timeout_expired_err_count
                       (m_td_queue_timeout_expired_err_count (mlt w) + 1) (mlt w)) w
        else if m_paused (mlt w) then
          set_mlt (set_td_paused_count (m_td_paused_count (mlt w) + 1) (mlt w)) w
        else
          let w := log_warning (m_run_number (mlt w)) w in
          set_mlt (set_td_inhibited_count (m_td_inhibited_count (mlt w) + 1) (mlt w)) w in
      (set_mlt (set_td_total_count (m_td_total_count (mlt w) + 1) (mlt w)) w, Continue)
  end.

(** What can happen during a run: a pass of the decision thread through
    its loop, the end of [send_trigger_decisions] once the loop is left,
    the commands [disable_triggers] and [enable_triggers], a message on the
    inhibit connection, and the store [m_running_flag.store(false)] that
    opens [do_stop]. *)
Inductive Event : Set :=
| Iteration (poll : option TriggerCandidate.t) (send_ok : bool)
| Epilogue (t1 t2 t3 t4 t5 : Z)
| Pause (now : Z)
| Resume (now : Z)
| Inhibit (inhibit : TriggerInhibit.t) (now : Z)
| StopRequest.

(** One event.  [None] is a dereference of a null [m_livetime_counter].
    The thread makes a pass only while it is in the loop, and runs the end
    of the function once, after it has left the loop; an event of the
    thread that is out of place leaves the world as it is. *)
Definition step (e : Event) (w : World) : option World :=
  match e with
  | Iteration poll send_ok =>
      if loop_exited w then Some w
      else
        let '(w, ctl) := loop_body poll send_ok w in
        Some (match ctl with
              | Break => set_loop_exited true w
              | Continue => w
              end)
  | Epilogue t1 t2 t3 t4 t5 =>
      if loop_exited w && negb (thread_returned w) then
        m ← send_trigger_decisions_epilogue t1 t2 t3 t4 t5 (mlt w);
        Some (set_thread_returned true (set_mlt m w))
      else Some w
  | Pause now => m ← do_pause now (mlt w); Some (set_mlt m w)
  | Resume now => m ← do_resume now (mlt w); Some (set_mlt m w)
  | Inhibit inhibit now => m ← dfo_busy_callback now inhibit (mlt w); Some (set_mlt m w)
  | StopRequest => Some (set_mlt (set_running_flag false (mlt w)) w)
  end.

Fixpoint run (evs : list Event) (w : World) : option World :=
  match evs with
  | [] => Some w
  | e :: evs => w ← step e w; run evs w
  end.

(** Whether event [e], happening in world [w], is a pass of the loop that
    hands a decision to the sender and sees the send succeed. *)
Definition delivers (e : Event) (w : World) : bool :=
  match e with
  | Iteration (Some _) send_ok =>
      negb (loop_exited w) && negb (m_paused (mlt w)) && negb (m_dfo_is_busy (mlt w))
      && send_ok
  | _ => false
  end.

(** The start command as the world sees it: [do_start], then the new
    thread enters [send_trigger_decisions] and runs its prologue. *)
Definition start_run (run_number : Z) (now : Z) (w : World) : World :=
  let w := set_mlt (do_start run_number now (mlt w)) w in
  let w := set_loop_exited false w in
  let w := set_thread_returned false w in
  set_mlt (send_trigger_decisions_prologue (mlt w)) w.

(** The bookkeeping of a run: the decisions sent since the start, [new],
    are numbered 1, 2, ... and the trigger number and the sent counter
    both equal their count. *)
Definition numbered (base : list TriggerDecision.t) (w : World) : Prop :=
  is_Some (m_livetime_counter (mlt w))
  /\ exists new : list TriggerDecision.t,
       sent w = base ++ new
       /\ map TriggerDecision.trigger_number new = map Z.of_nat (seq 1 (length new))
       /\ m_last_trigger_number (mlt w) = Z.of_nat (length new)
       /\ m_td_sent_count (mlt w) = Z.of_nat (length new).

End ModuleLevelTrigger.

(** ** BufferManager *)

Module BufferManager.

(** Modelled from the spec: [trigger/TPSet.hpp] is not among the sources;
    the spec's BufferedInterval is [{start_time, end_time, payload}]. *)
Record TPSet : Set := mkTPSet {
  start_time : Z;
  end_time : Z;
  payload : list Z
}.

(** [TPSetCmp::operator()] *)
Definition TPSetCmp (ltps rtps : TPSet) : bool :=
  let LTPS := start_time ltps in
  let RTPS := start_time rtps in
  LTPS <? RTPS.

(** [m_tpset_buffer], a [std::set<TPSet, TPSetCmp>]: its elements in
    iteration order. *)
Abbreviation buffer := (list TPSet).

(** [std::set::insert] under [TPSetCmp]: the element goes before the first
    one it is less than; when neither is less than the other they are
    equivalent, nothing is inserted and the result's flag is [false]. *)
Fixpoint set_insert (tps : TPSet) (b : buffer) : buffer * bool :=
  match b with
  | [] => ([tps], true)
  | x :: b' =>
      if TPSetCmp tps x then (tps :: x :: b', true)
      else if TPSetCmp x tps then
        let '(r, inserted) := set_insert tps b' in (x :: r, inserted)
      else (x :: b', false)
  end.

(** [erase(begin())] while the size exceeds [capacity]. *)
Fixpoint evict (fuel : nat) (capacity : nat) (b : buffer) : buffer :=
  match fuel with
  | O => b
  | S fuel =>
      if (capacity <? length b)%nat then evict fuel capacity (tail b) else b
  end.

(** Modelled from the spec: [BufferManager::add] is declared in the header
    but defined in a file that is not among the sources.  "inserts; if
    resulting size exceeds configured capacity, evicts the interval(s)
    with smallest [start_time] until size == capacity.  Returns whether
    the insert succeeded." *)
Definition add (capacity : nat) (tps : TPSet) (b : buffer) : buffer * bool :=
  let '(b, inserted) := set_insert tps b in
  (evict (length b) capacity b, inserted).

(** The buffers a sequence of [add] calls can produce from the empty one. *)
Fixpoint add_all (capacity : nat) (l : list TPSet) (b : buffer) : buffer :=
  match l with
  | [] => b
  | tps :: l => add_all capacity l (fst (add capacity tps b))
  end.

(** Equivalence under the ordering, as [std::set] understands it: neither
    element is less than the other. *)
Definition equivalent (a b : TPSet) : bool :=
  negb (TPSetCmp a b) && negb (TPSetCmp b a).

(** The invariant of the ordered set: every element is less than all the
    elements after it. *)
Definition ascending (b : buffer) : Prop :=
  StronglySorted (fun x y => TPSetCmp x y = true) b.

(** What [add] keeps true of the buffer. *)
Definition buffer_ok (capacity : nat) (b : buffer) : Prop :=
  ascending b /\ (length b <= capacity)%nat.

End BufferManager.

(** ** Scenario data *)

Module Scenario.

Import ModuleLevelTrigger.

Definition link1 : GeoID := mkGeoID 1 0 1.
Definition link2 : GeoID := mkGeoID 1 0 2.

(** A freshly constructed module, configured with the two links. *)
Definition configured (passthrough : bool) : World :=
  mkWorld (do_configure (mkConfParams [link1; link2] passthrough) ModuleLevelTrigger)
    [] [] [] true true.

(** Run 7, started at clock 1000. *)
Definition started (passthrough : bool) : World :=
  start_run 7 1000 (configured passthrough).

Definition candidate : TriggerCandidate.t :=
  TriggerCandidate.mk 100 200 150 0 TriggerCandidate.kTiming 0 0 [].

Definition interval (start : Z) : BufferManager.TPSet :=
  BufferManager.mkTPSet start (start + 5) [].

End Scenario.

(** ** Monitoring *)

Module Monitoring.

Import ModuleLevelTrigger.

(** [moduleleveltriggerinfo::Info], the record [get_info] publishes. *)
Record Info : Set := mkInfo {
  tc_received_count : Z;
  td_sent_count : Z;
  td_inhibited_count : Z;
  td_paused_count : Z;
  td_total_count : Z;
  lc_kLive : Z;
  lc_kPaused : Z;
  lc_kDead : Z
}.

(** [get_info].  [i] is the default-constructed [Info] the function starts
    from; the three livetime fields are assigned only when the counter
    exists, [t1], [t2], [t3] being the clock readings of the three
    queries. *)
Definition get_info (i : Info) (t1 t2 t3 : Z) (m : ModuleLevelTrigger.t) : Info :=
  let i := mkInfo (m_tc_received_count m) (td_sent_count i) (td_inhibited_count i)
             (td_paused_count i) (td_total_count i) (lc_kLive i) (lc_kPaused i) (lc_kDead i) in
  let i := mkInfo (tc_received_count i) (m_td_sent_count m) (td_inhibited_count i)
             (td_paused_count i) (td_total_count i) (lc_kLive i) (lc_kPaused i) (lc_kDead i) in
  let i := mkInfo (tc_received_count i) (td_sent_count i) (m_td_inhibited_count m)
             (td_paused_count i) (td_total_count i) (lc_kLive i) (lc_kPaused i) (lc_kDead i) in
  let i := mkInfo (tc_received_count i) (td_sent_count i) (td_inhibited_count i)
             (m_td_paused_count m) (td_total_count i) (lc_kLive i) (lc_kPaused i) (lc_kDead i) in
  let i := mkInfo (tc_received_count i) (td_sent_count i) (td_inhibited_count i)
             (td_paused_count i) (m_td_total_count m) (lc_kLive i) (lc_kPaused i) (lc_kDead i) in
  match m_livetime_counter m with
  | Some lc =>
      mkInfo (tc_received_count i) (td_sent_count i) (td_inhibited_count i)
        (td_paused_count i) (td_total_count i)
        (LivetimeCounter.get_time LivetimeCounter.kLive t1 lc)
        (LivetimeCounter.get_time LivetimeCounter.kPaused t2 lc)
        (LivetimeCounter.get_time LivetimeCounter.kDead t3 lc)
  | None => i
  end.

End Monitoring.

(** ** Traces of a run *)

Module Traces.

Import ModuleLevelTrigger.

Definition is_resume (e : Event) : bool :=
  match e with
  | Resume _ => true
  | _ => false
  end.


(** The candidate event [e] makes the loop hand to the sender in world [w],
    with the outcome of the send: a pass that received a candidate while
    the thread is in the loop and neither flag is up. *)
Definition attempts (e : Event) (w : World) : option (TriggerCandidate.t * bool) :=
  match e with
  | Iteration (Some tc) send_ok =>
      if negb (loop_exited w) && negb (m_paused (mlt w)) && negb (m_dfo_is_busy (mlt w))
      then Some (tc, send_ok)
      else None
  | _ => None
  end.


(** The number each of a series of sends carries when the first carries
    [n] and the number moves up after a send that succeeded only. *)
Fixpoint numbers_from (n : Z) (oks : list bool) : list Z :=
  match oks with
  | [] => []
  | ok :: oks => n :: numbers_from (if ok then n + 1 else n) oks
  end.

(** The number of sends that succeeded, and that failed, in a series of
    outcomes. *)
Definition successes (oks : list bool) : Z :=
  Z.of_nat (length (filter (fun ok => ok = true) oks)).
Definition failures (oks : list bool) : Z :=
  Z.of_nat (length (filter (fun ok => ok = false) oks)).


(** The bookkeeping of a run whose log of sends has grown from [base] and
    whose failure counter stood at [ec0] when it started. *)
Definition accounted (base : list (TriggerDecision.t * bool)) (ec0 : Z) (w : World) : Prop :=
  exists new : list (TriggerDecision.t * bool),
    sends w = base ++ new
    /\ map TriggerDecision.trigger_number (map fst new) = numbers_from 1 (map snd new)
    /\ m_last_trigger_number (mlt w) = successes (map snd new)
    /\ m_td_sent_count (mlt w) = successes (map snd new)
    /\ m_td_queue_timeout_expired_err_count (mlt w) = ec0 + failures (map snd new)
    /\ m_tc_received_count (mlt w) = m_td_total_count (mlt w)
    /\ m_td_total_count (mlt w)
       = m_td_sent_count (mlt w) + m_td_paused_count (mlt w)
         + m_td_inhibited_count (mlt w) + failures (map snd new).

End Traces.

(** ** The decision loop, statement by statement *)

Module Interleaving.

Import ModuleLevelTrigger.

(** Where the decision thread stands in [send_trigger_decisions]: before
    the statement named, with the candidate it holds. *)
Inductive Pc : Set :=
| AtPoll                                   (* try_receive *)
| AtRunningCheck                           (* !m_running_flag.load() *)
| AtLoadPaused (tc : TriggerCandidate.t)   (* if (!m_paused.load() ... *)
| AtLoadBusy (tc : TriggerCandidate.t)     (* ... && !m_dfo_is_busy.load()) *)
| AtSend (tc : TriggerCandidate.t)         (* create_decision; send *)
| AtCountSent                              (* m_td_sent_count++ *)
| AtCountNumber                            (* m_last_trigger_number++ *)
| AtCountError                             (* m_td_queue_timeout_expired_err_count++ *)
| AtReloadPaused (tc : TriggerCandidate.t) (* else if (m_paused.load()) *)
| AtCountPaused                            (* ++m_td_paused_count *)
| AtWarnInhibited                          (* ers::warning; m_td_inhibited_count++ *)
| AtCountTotal                             (* m_td_total_count++ *)
| Exited.                                  (* after the break *)

Record State : Set := mkState {
  world : World;
  pc : Pc
}.

(** One step of the decision thread.  [poll] is what [try_receive] returns
    if the thread is at the poll, [send_ok] the outcome of the send if it
    is at the send; a flag is read where the code loads it, from the world
    as it is at that step. *)
Definition tick (poll : option TriggerCandidate.t) (send_ok : bool) (s : State) : State :=
  let w := world s in
  let m := mlt w in
  match pc s with
  | AtPoll =>
      match poll with
      | None => mkState w AtRunningCheck
      | Some tc =>
          mkState (set_mlt (set_tc_received_count (m_tc_received_count m + 1) m) w)
            (AtLoadPaused tc)
      end
  | AtRunningCheck =>
      if negb (m_running_flag m) then mkState (set_loop_exited true w) Exited
      else mkState w AtPoll
  | AtLoadPaused tc =>
      if negb (m_paused m) then mkState w (AtLoadBusy tc)
      else mkState w (AtReloadPaused tc)
  | AtLoadBusy tc =>
      if negb (m_dfo_is_busy m) then mkState w (AtSend tc)
      else mkState w (AtReloadPaused tc)
  | AtSend tc =>
      let '(decision, m) := create_decision tc m in
      let w := set_mlt m w in
      let w := log_send decision send_ok w in
      if send_ok then mkState w AtCountSent
      else mkState (log_error (TriggerCandidate.time_candidate tc) w) AtCountError
  | AtCountSent =>
      mkState (set_mlt (set_td_sent_count (m_td_sent_count m + 1) m) w) AtCountNumber
  | AtCountNumber =>
      mkState (set_mlt (set_last_trigger_number (m_last_trigger_number m + 1) m) w)
        AtCountTotal
  | AtCountError =>
      mkState (set_mlt (set_td_queue_timeout_expired_err_count
                          (m_td_queue_timeout_expired_err_count m + 1) m) w)
        AtCountTotal
  | AtReloadPaused tc =>
      if m_paused m then mkState w AtCountPaused
      else mkState w AtWarnInhibited
  | AtCountPaused =>
      mkState (set_mlt (set_td_paused_count (m_td_paused_count m + 1) m) w) AtCountTotal
  | AtWarnInhibited =>
      let w := log_warning (m_run_number m) w in
      mkState (set_mlt (set_td_inhibited_count (m_td_inhibited_count (mlt w) + 1) (mlt w)) w)
        AtCountTotal
  | AtCountTotal =>
      mkState (set_mlt (set_td_total_count (m_td_total_count m + 1) m) w) AtPoll
  | Exited => s
  end.

(** What the other threads do. *)
Inductive Async : Set :=
| APause (now : Z)
| AResume (now : Z)
| AInhibit (inhibit : TriggerInhibit.t) (now : Z)
| AStopRequest.

Definition async_event (a : Async) : ModuleLevelTrigger.Event :=
  match a with
  | APause now => Pause now
  | AResume now => Resume now
  | AInhibit inhibit now => Inhibit inhibit now
  | AStopRequest => StopRequest
  end.

(** An event of the interleaved run: a step of the decision thread, or a
    command or callback on another thread. *)
Inductive Event : Set :=
| Tick (poll : option TriggerCandidate.t) (send_ok : bool)
| Other (a : Async).

Definition step (e : Event) (s : State) : option State :=
  match e with
  | Tick poll send_ok => Some (tick poll send_ok s)
  | Other a =>
      w ← ModuleLevelTrigger.step (async_event a) (world s);
      Some (mkState w (pc s))
  end.

Fixpoint run (evs : list Event) (s : State) : option State :=
  match evs with
  | [] => Some s
  | e :: evs => s ← step e s; run evs s
  end.

(** The start of a run: the thread is at its first poll. *)
Definition start (run_number now : Z) (w : World) : State :=
  mkState (start_run run_number now w) AtPoll.


(** The steps of the thread up to the end of the pass it is in: back at
    the poll, or out of the loop. *)
Fixpoint finish_pass (fuel : nat) (poll : option TriggerCandidate.t) (send_ok : bool)
    (s : State) : State :=
  match fuel with
  | O => s
  | S fuel =>
      let s := tick poll send_ok s in
      match pc s with
      | AtPoll | Exited => s
      | _ => finish_pass fuel poll send_ok s
      end
  end.


End Interleaving.

(** ** The thread of TimingTriggerCandidateMaker *)

Module TimingThread.

Import TimingTriggerCandidateMaker.

(** Where the thread running [do_work] stands: at the condition of the
    outer [while], inside the inner [while] with a candidate to push, or
    back from the function. *)
Inductive Pc : Set :=
| AtLoopTop
| AtPush (candidate : TriggerCandidate.t)
| Returned.

(** The module and its two queues: [popped] is what the thread has taken
    from the input queue, [pushed] what the output queue has accepted,
    both oldest first; [warnings] counts the [QueueTimeoutExpired]
    warnings. *)
Record State : Set := mkState {
  m_detid_offsets_map : offsets_map;
  running_flag : bool;
  pc : Pc;
  popped : list TimeStampedData.t;
  pushed : list TriggerCandidate.t;
  warnings : nat
}.

(** What can happen: the thread evaluates the condition of the outer loop
    and, the flag being up, pops with a timeout ([pop] is [None] when the
    timeout expires); the thread attempts a push ([ok] is [false] when the
    timeout expires); [stop_working_thread] lowers the flag. *)
Inductive Event : Set :=
| Pass (pop : option TimeStampedData.t)
| PushAttempt (ok : bool)
| Stop.

(** One event of [do_work]; an event of the thread that is out of place
    leaves the state as it is. *)
Definition step (e : Event) (s : State) : State :=
  match e with
  | Pass pop =>
      match pc s with
      | AtLoopTop =>
          if running_flag s then
            match pop with
            | None => s
            | Some data =>
                let '(candidate, m) :=
                  TimeStampedDataToTriggerCandidate data (m_detid_offsets_map s) in
                mkState m (running_flag s) (AtPush candidate) (popped s ++ [data])
                  (pushed s) (warnings s)
            end
          else
            mkState (m_detid_offsets_map s) (running_flag s) Returned (popped s)
              (pushed s) (warnings s)
      | _ => s
      end
  | PushAttempt ok =>
      match pc s with
      | AtPush candidate =>
          if ok then
            mkState (m_detid_offsets_map s) (running_flag s) AtLoopTop (popped s)
              (pushed s ++ [candidate]) (warnings s)
          else
            mkState (m_detid_offsets_map s) (running_flag s) (AtPush candidate) (popped s)
              (pushed s) (S (warnings s))
      | _ => s
      end
  | Stop =>
      mkState (m_detid_offsets_map s) false (pc s) (popped s) (pushed s) (warnings s)
  end.

Definition run (evs : list Event) (s : State) : State :=
  fold_left (fun s e => step e s) evs s.

(** [do_start]: the thread enters [do_work] with the flag up. *)
Definition do_start (m : offsets_map) : State :=
  mkState m true AtLoopTop [] [] 0.

(** The conversions of a series of data, the map being carried from one to
    the next. *)
Fixpoint convert_all (data : list TimeStampedData.t) (m : offsets_map)
    : list TriggerCandidate.t * offsets_map :=
  match data with
  | [] => ([], m)
  | d :: data =>
      let '(c, m) := TimeStampedDataToTriggerCandidate d m in
      let '(cs, m) := convert_all data m in
      (c :: cs, m)
  end.

(** The candidate the thread holds and has not pushed yet. *)
Definition pending (s : State) : list TriggerCandidate.t :=
  match pc s with
  | AtPush candidate => [candidate]
  | _ => []
  end.

Definition is_pass (e : Event) : bool :=
  match e with
  | Pass _ => true
  | _ => false
  end.

Definition is_push_ok (e : Event) : bool :=
  match e with
  | PushAttempt true => true
  | _ => false
  end.

Definition is_push_failure (e : Event) : bool :=
  match e with
  | PushAttempt false => true
  | _ => false
  end.

(** What every event keeps true: the candidates pushed, followed by the
    one in hand, are the conversions of the data popped, and the thread
    has returned only with the flag down and nothing in hand. *)
Definition in_order (m0 : offsets_map) (s : State) : Prop :=
  convert_all (popped s) m0 = (pushed s ++ pending s, m_detid_offsets_map s)
  /\ (pc s = Returned -> running_flag s = false).

End TimingThread.

(** * Properties *)

(** ** Livetime accounting *)

Module LivetimeCounterFacts.

Import LivetimeCounter.

Lemma State_eqb_eq (a b : State) : State_eqb a b = true <-> a = b.
Proof. destruct a, b; simpl; split; congruence. Qed.

Lemma accumulated_total_set_state (target : State) (now : Z) (lc : t) :
  accumulated_total (set_state target now lc)
  = accumulated_total lc + (now - entered_at lc).
Proof.
  unfold accumulated_total, set_state, add_accumulated.
  destruct (current_state lc); simpl; lia.
Qed.

(** The accumulators always add up to the time between the creation of the
    counter and its last transition. *)
Lemma transitions_closed_time (ts : list (State * Z)) (lc : t) (t0 : Z) :
  accumulated_total lc = entered_at lc - t0 ->
  accumulated_total (transitions ts lc) = entered_at (transitions ts lc) - t0.
Proof.
  revert lc. induction ts as [|[target now] ts IH]; intros lc Hlc.
  - exact Hlc.
  - simpl. apply IH. rewrite accumulated_total_set_state, Hlc. simpl. lia.
Qed.

Lemma get_time_sum (now : Z) (lc : t) :
  get_time kLive now lc + get_time kPaused now lc + get_time kDead now lc
  = accumulated_total lc + (now - entered_at lc).
Proof.
  unfold get_time, accumulated_total.
  destruct (current_state lc); simpl; lia.
Qed.

(** C6.  Whatever the sequence of transitions a counter created at time
    [t0] has gone through, and whatever the query time [now], the elapsed
    times of Live, Paused and Dead add up to [now - t0], the time since
    the counter was created.  A transition adds [now - entered_at] to the
    accumulator of the state that is left and to no other, enters the
    target state and resets [entered_at]; a query returns the accumulator
    of the state, plus the open interval when the state is the current
    one. *)
Theorem elapsed_sum_is_time_since_creation
    (state0 : State) (t0 : Z) (ts : list (State * Z)) (now : Z) :
  (let lc := transitions ts (create state0 t0) in
   get_time kLive now lc + get_time kPaused now lc + get_time kDead now lc
   = now - t0)
  /\ (forall (lc : t) (target : State) (t : Z) (s : State),
        let lc' := set_state target t lc in
        current_state lc' = target
        /\ entered_at lc' = t
        /\ accumulated lc' s
           = accumulated lc s
             + (if State_eqb s (current_state lc) then t - entered_at lc else 0))
  /\ (forall (lc : t) (s : State),
        get_time s now lc
        = if State_eqb s (current_state lc)
          then accumulated lc s + (now - entered_at lc)
          else accumulated lc s).
Proof.
  split; [|split].
  - cbv zeta. rewrite get_time_sum.
    rewrite (transitions_closed_time ts (create state0 t0) t0) by (unfold accumulated_total; cbn; lia).
    lia.
  - intros lc target t s. cbv zeta. repeat split.
    unfold set_state, add_accumulated.
    destruct (current_state lc), s; simpl; lia.
  - intros lc s. unfold get_time.
    destruct (State_eqb s (current_state lc)); lia.
Qed.

End LivetimeCounterFacts.

(** ** Decision construction *)

Module CreateDecisionFacts.

Import TriggerCandidate ModuleLevelTrigger.

Lemma push_requests_app (tc : TriggerCandidate.t) (links : list GeoID)
    (acc : list ComponentRequest.t) :
  push_requests tc links acc
  = acc ++ map (fun link => ComponentRequest.mk link (time_start tc) (time_end tc)) links.
Proof.
  revert acc. induction links as [|link links IH]; intros acc.
  - simpl. by rewrite app_nil_r.
  - change (push_requests tc (link :: links) acc)
      with (push_requests tc links
              (acc ++ [ComponentRequest.mk link (time_start tc) (time_end tc)])).
    rewrite IH, <- app_assoc. reflexivity.
Qed.

Lemma m_links_set_trigger_type_shifted (v : Z) (m : ModuleLevelTrigger.t) :
  m_links (set_trigger_type_shifted v m) = m_links m.
Proof. by destruct m. Qed.

Lemma m_trigger_type_shifted_set (v : Z) (m : ModuleLevelTrigger.t) :
  m_trigger_type_shifted (set_trigger_type_shifted v m) = v.
Proof. by destruct m. Qed.

Lemma low_8_bits (x : Z) : Z.land x 255 = x mod 256.
Proof. change 255 with (Z.ones 8). rewrite Z.land_ones by lia. reflexivity. Qed.

Lemma m_links_set_links (v : list GeoID) (m : ModuleLevelTrigger.t) :
  m_links (set_links v m) = v.
Proof. by destruct m. Qed.

Lemma push_links (new : list GeoID) (m : ModuleLevelTrigger.t) :
  m_links (fold_left (fun m link => set_links (m_links m ++ [link]) m) new m)
  = m_links m ++ new.
Proof.
  revert m. induction new as [|link new IH]; intros m; simpl.
  - by rewrite app_nil_r.
  - rewrite IH, m_links_set_links, <- app_assoc. reflexivity.
Qed.

(** [do_configure] leaves exactly the configured links in [m_links], in the
    order of the configuration. *)
Lemma do_configure_links (params : ConfParams) (m : ModuleLevelTrigger.t) :
  m_links (do_configure params m) = links params.
Proof.
  unfold do_configure.
  destruct (fold_left _ (links params) (set_links [] m)) as [] eqn:E.
  apply (f_equal m_links) in E. rewrite push_links, m_links_set_links in E.
  simpl in *. symmetry. exact E.
Qed.

(** Every trigger type [create_decision] computes fits 16 bits when the
    type code is below 256, as the codes of an enumeration are: a 16-bit
    [trigger_type] field holds the values of this model unchanged. *)
Lemma trigger_type_fits_16_bits (tc : TriggerCandidate.t) (m : ModuleLevelTrigger.t) :
  match type tc with kTiming => True | kOther code => 0 <= code < 256 end ->
  wrap16 (TriggerDecision.trigger_type (fst (create_decision tc m)))
  = TriggerDecision.trigger_type (fst (create_decision tc m)).
Proof.
  intros Hcode. unfold wrap16. apply Z.mod_small.
  unfold create_decision.
  destruct (m_hsi_passthrough m); [|simpl; lia].
  destruct (type tc) as [|code]; simpl.
  - rewrite low_8_bits. pose proof (Z.mod_pos_bound (detid tc) 256). lia.
  - rewrite m_trigger_type_shifted_set, Z.shiftl_mul_pow2 by lia. lia.
Qed.

(** C2.  The trigger type of the decision built for a candidate: with
    pass-through enabled, the low 8 bits of the detector id when the
    candidate's type is Timing, and the type code shifted left by 8 bits
    (the code times 256) when it is any other type; with pass-through
    disabled, the constant 1. *)
Theorem create_decision_trigger_type (tc : TriggerCandidate.t) (m : ModuleLevelTrigger.t) :
  TriggerDecision.trigger_type (fst (create_decision tc m))
  = if m_hsi_passthrough m then
      match type tc with
      | kTiming => detid tc mod 256
      | kOther code => code * 2 ^ 8
      end
    else 1.
Proof.
  unfold create_decision.
  destruct (m_hsi_passthrough m); [|reflexivity].
  destruct (type tc) as [|code]; simpl.
  - apply low_8_bits.
  - rewrite m_trigger_type_shifted_set, Z.shiftl_mul_pow2 by lia. reflexivity.
Qed.

(** C9.  The decision built for a candidate carries the candidate's
    [time_candidate] as its trigger timestamp, and its readout requests
    are the links of the module, one request per link and in their order,
    each with the window [time_start, time_end] of the candidate.  The
    links of the module are those of the configuration, in the order of the
    configuration. *)
Theorem create_decision_timestamp_and_requests
    (tc : TriggerCandidate.t) (m : ModuleLevelTrigger.t) :
  let decision := fst (create_decision tc m) in
  (forall (params : ConfParams) (m0 : ModuleLevelTrigger.t),
     m_links (do_configure params m0) = links params)
  /\ TriggerDecision.trigger_timestamp decision = time_candidate tc
  /\ TriggerDecision.components decision
     = map (fun link => ComponentRequest.mk link (time_start tc) (time_end tc)) (m_links m)
  /\ length (TriggerDecision.components decision) = length (m_links m)
  /\ map ComponentRequest.component (TriggerDecision.components decision) = m_links m
  /\ Forall (fun request =>
               ComponentRequest.window_begin request = time_start tc
               /\ ComponentRequest.window_end request = time_end tc)
            (TriggerDecision.components decision).
Proof.
  assert (Hc : TriggerDecision.components (fst (create_decision tc m))
               = map (fun link => ComponentRequest.mk link (time_start tc) (time_end tc))
                     (m_links m)).
  { unfold create_decision.
    destruct (m_hsi_passthrough m); [destruct (type tc)|]; simpl;
      rewrite push_requests_app; simpl;
      rewrite ?m_links_set_trigger_type_shifted; reflexivity. }
  cbv zeta. rewrite Hc. split; [exact do_configure_links|]. repeat split.
  - unfold create_decision.
    destruct (m_hsi_passthrough m); [destruct (type tc)|]; reflexivity.
  - by rewrite length_map.
  - rewrite map_map. simpl. apply map_id.
  - apply Forall_forall. intros request Hin.
    apply list_elem_of_In, in_map_iff in Hin. destruct Hin as (link & <- & _). by split.
Qed.

End CreateDecisionFacts.

(** ** The inhibit callback *)

Module InhibitFacts.

Import ModuleLevelTrigger.

(** C3.  A busy/idle notification delivered while the livetime counter of
    the run exists.  When its run number is not the active one the module
    is left exactly as it was: busy flag and gate state are untouched.
    When it is the active one, the busy flag becomes the busy value of the
    notification and the gate state is Dead afterwards, for [busy = true]
    and for [busy = false] alike: a busy=false notification never brings
    the gate state back to Live.  The callback changes nothing else. *)
Theorem dfo_busy_callback_run_number_gate
    (now : Z) (inhibit : TriggerInhibit.t) (m : ModuleLevelTrigger.t)
    (lc : LivetimeCounter.t) :
  m_livetime_counter m = Some lc ->
  exists m' : ModuleLevelTrigger.t,
    dfo_busy_callback now inhibit m = Some m'
    /\ if TriggerInhibit.run_number inhibit =? m_run_number m then
         m_dfo_is_busy m' = TriggerInhibit.busy inhibit
         /\ m_livetime_counter m'
            = Some (LivetimeCounter.set_state LivetimeCounter.kDead now lc)
         /\ gate_state m' = Some LivetimeCounter.kDead
         /\ gate_state m' <> Some LivetimeCounter.kLive
         /\ set_dfo_is_busy (m_dfo_is_busy m) (set_livetime_counter (Some lc) m') = m
       else m' = m.
Proof.
  intros Hlc. unfold dfo_busy_callback.
  destruct (TriggerInhibit.run_number inhibit =? m_run_number m).
  - destruct m; simpl in *. subst. simpl.
    eexists. split; [reflexivity|]. simpl. unfold gate_state. simpl.
    repeat split; congruence.
  - exists m. by split.
Qed.

Lemma dfo_busy_callback_run_number_gate_witness :
  let m := do_start 7 100 ModuleLevelTrigger in
  let lc := LivetimeCounter.create LivetimeCounter.kPaused 100 in
  m_livetime_counter m = Some lc
  /\ exists m' : ModuleLevelTrigger.t,
       dfo_busy_callback 160 (TriggerInhibit.mk false 7) m = Some m'
       /\ m_dfo_is_busy m' = false
       /\ gate_state m' = Some LivetimeCounter.kDead.
Proof.
  split; [reflexivity|].
  destruct (dfo_busy_callback_run_number_gate 160 (TriggerInhibit.mk false 7)
              (do_start 7 100 ModuleLevelTrigger)
              (LivetimeCounter.create LivetimeCounter.kPaused 100) eq_refl)
    as (m' & Hcb & Hm').
  exists m'. split; [exact Hcb|].
  simpl in Hm'. destruct Hm' as (Hbusy & _ & Hgate & _). by split.
Defined.

End InhibitFacts.

(** ** The decision loop *)

Module DecisionLoopFacts.

Import TriggerCandidate ModuleLevelTrigger.

(** Case analysis on a world: expose every field so that the field
    assignments compute. *)
Ltac expose w :=
  let m := fresh "m" in
  destruct w as [m ? ? ? ? ?]; destruct m; simpl in *.

Lemma sent_app (w : World) (d : TriggerDecision.t) (ok : bool) :
  sent (log_send d ok w) = if ok then sent w ++ [d] else sent w.
Proof.
  unfold sent, log_send; simpl.
  rewrite filter_app, map_app.
  destruct ok; simpl; [reflexivity | by rewrite app_nil_r].
Qed.

Lemma create_decision_trigger_number (tc : TriggerCandidate.t) (m : ModuleLevelTrigger.t) :
  TriggerDecision.trigger_number (fst (create_decision tc m)) = m_last_trigger_number m + 1.
Proof.
  unfold create_decision.
  destruct (m_hsi_passthrough m); [destruct (type tc)|]; reflexivity.
Qed.

(** [create_decision] writes no member but [m_trigger_type_shifted]. *)
Lemma create_decision_frame (tc : TriggerCandidate.t) (m : ModuleLevelTrigger.t) :
  set_trigger_type_shifted (m_trigger_type_shifted m) (snd (create_decision tc m)) = m.
Proof.
  unfold create_decision.
  destruct m as [? ? ? hp ? ? ? ? ? ? ? ? ? ? ? ? ? ? ? ? ? ? ?]; simpl.
  destruct hp; [destruct (type tc)|]; reflexivity.
Qed.

(** The counters a pass that received a candidate always moves. *)
Lemma loop_body_candidate_counters
    (tc : TriggerCandidate.t) (send_ok : bool) (w : World) :
  m_tc_received_count (mlt (fst (loop_body (Some tc) send_ok w)))
  = m_tc_received_count (mlt w) + 1
  /\ m_td_total_count (mlt (fst (loop_body (Some tc) send_ok w)))
     = m_td_total_count (mlt w) + 1
  /\ snd (loop_body (Some tc) send_ok w) = Continue.
Proof.
  destruct w as [m sends0 warnings0 errors0 exited0 returned0].
  destruct m as [tn rn ls hp ts cf pa ru bu lc rc sc ic pc tc0 ec kl kp kd klc kpc kdc dt].
  unfold loop_body; simpl.
  destruct pa; simpl; [by repeat split|].
  destruct bu; simpl; [by repeat split|].
  unfold create_decision; simpl.
  destruct hp; [destruct (type tc)|]; destruct send_ok; simpl; by repeat split.
Qed.

(** A pass that received a candidate and that no other thread interrupts
    adds exactly 1 to [m_tc_received_count] and to [m_td_total_count] and
    takes exactly one of three branches, the pause flag being looked at
    before the busy flag: paused, the pause counter goes up by 1 and
    nothing is handed to the sender; busy and not paused, the inhibited
    counter goes up by 1, nothing is handed to the sender and one
    [TriggerInhibited] warning is issued; otherwise the decision built from
    the candidate is handed to the sender, once, and none of the two
    counters moves.  A pass that [do_resume] interrupts between its two
    loads of [m_paused] does otherwise (module [InterleavingFacts]). *)
Theorem loop_body_candidate_bookkeeping
    (tc : TriggerCandidate.t) (send_ok : bool) (w : World) :
  let w' := fst (loop_body (Some tc) send_ok w) in
  m_tc_received_count (mlt w') = m_tc_received_count (mlt w) + 1
  /\ m_td_total_count (mlt w') = m_td_total_count (mlt w) + 1
  /\ if m_paused (mlt w) then
       m_td_paused_count (mlt w') = m_td_paused_count (mlt w) + 1
       /\ m_td_inhibited_count (mlt w') = m_td_inhibited_count (mlt w)
       /\ sends w' = sends w
       /\ warnings w' = warnings w
     else if m_dfo_is_busy (mlt w) then
       m_td_inhibited_count (mlt w') = m_td_inhibited_count (mlt w) + 1
       /\ m_td_paused_count (mlt w') = m_td_paused_count (mlt w)
       /\ sends w' = sends w
       /\ warnings w' = warnings w ++ [m_run_number (mlt w)]
     else
       sends w' = sends w ++ [(fst (create_decision tc (mlt w)), send_ok)]
       /\ m_td_paused_count (mlt w') = m_td_paused_count (mlt w)
       /\ m_td_inhibited_count (mlt w') = m_td_inhibited_count (mlt w)
       /\ warnings w' = warnings w.
Proof.
  destruct w as [m sends0 warnings0 errors0 exited0 returned0].
  destruct m as [tn rn ls hp ts cf pa ru bu lc rc sc ic pc tc0 ec kl kp kd klc kpc kdc dt].
  unfold loop_body; simpl.
  destruct pa; simpl; [by repeat split|].
  destruct bu; simpl; [by repeat split|].
  unfold create_decision; simpl.
  destruct hp; [destruct (type tc)|]; destruct send_ok; simpl; by repeat split.
Qed.

(** C4.  A pass of the loop whose send fails: the trigger number and the
    sent counter stay as they were, the failure counter goes up by 1, the
    decision was handed to the sender exactly once and is not among the
    decisions sent, and the pass ends like any other: the loop goes on
    and the thread does not fail. *)
Theorem loop_body_failed_send
    (tc : TriggerCandidate.t) (w : World) :
  m_paused (mlt w) = false ->
  m_dfo_is_busy (mlt w) = false ->
  loop_exited w = false ->
  exists w' : World,
    step (Iteration (Some tc) false) w = Some w'
    /\ loop_body (Some tc) false w = (w', Continue)
    /\ loop_exited w' = false
    /\ m_last_trigger_number (mlt w') = m_last_trigger_number (mlt w)
    /\ m_td_sent_count (mlt w') = m_td_sent_count (mlt w)
    /\ m_td_queue_timeout_expired_err_count (mlt w')
       = m_td_queue_timeout_expired_err_count (mlt w) + 1
    /\ sends w' = sends w ++ [(fst (create_decision tc (mlt w)), false)]
    /\ sent w' = sent w.
Proof.
  intros Hpa Hbu Hex.
  destruct w as [m sends0 warnings0 errors0 exited0 returned0].
  destruct m as [tn rn ls hp ts cf pa ru bu lc rc sc ic pc tc0 ec kl kp kd klc kpc kdc dt].
  simpl in *. subst.
  eexists. split; [|split]; [| reflexivity |].
  - unfold step. simpl. unfold create_decision; simpl.
    destruct hp; [destruct (type tc)|]; reflexivity.
  - unfold loop_body, create_decision; simpl.
    destruct hp; [destruct (type tc)|]; simpl; repeat split;
      unfold sent; simpl; rewrite filter_app; simpl; by rewrite app_nil_r.
Qed.

Lemma loop_body_failed_send_witness :
  exists w w' : World,
    run [Resume 1010] (Scenario.started false) = Some w
    /\ (m_paused (mlt w) = false /\ m_dfo_is_busy (mlt w) = false /\ loop_exited w = false)
    /\ step (Iteration (Some Scenario.candidate) false) w = Some w'
    /\ loop_exited w' = false
    /\ m_last_trigger_number (mlt w') = m_last_trigger_number (mlt w)
    /\ m_td_queue_timeout_expired_err_count (mlt w')
       = m_td_queue_timeout_expired_err_count (mlt w) + 1
    /\ sent w' = sent w.
Proof.
  eexists.
  match goal with
  | |- exists w', run ?evs ?w0 = Some ?w /\ _ =>
      assert (Hrun : run evs w0 = Some w) by (vm_compute; reflexivity)
  end.
  match type of Hrun with
  | _ = Some ?w =>
      destruct (loop_body_failed_send Scenario.candidate w eq_refl eq_refl eq_refl)
        as (w' & Hstep & _ & Hex & Htn & _ & Herr & _ & Hsent)
  end.
  exists w'. split; [exact Hrun|]. split; [by repeat split|].
  split; [exact Hstep|]. by repeat split.
Defined.

(** The counters of the loop, in the order [m_last_trigger_number],
    [m_tc_received_count], [m_td_sent_count], [m_td_inhibited_count],
    [m_td_paused_count], [m_td_total_count]. *)
Lemma step_counters (e : Event) (w w' : World) :
  step e w = Some w' ->
  Forall2 (fun c c' => c <= c' <= c + 1) (counters (mlt w)) (counters (mlt w'))
  /\ configuration (mlt w') = configuration (mlt w).
Proof.
  destruct w as [m sends0 warnings0 errors0 exited0 returned0].
  destruct m as [tn rn ls hp ts cf pa ru bu lc rc sc ic pc tc0 ec kl kp kd klc kpc kdc dt].
  unfold counters, configuration.
  destruct e as [[tc|] send_ok | t1 t2 t3 t4 t5 | now | now | inhibit now |]; simpl.
  - destruct exited0; simpl;
      [intros [= <-]; simpl; split; [repeat constructor; lia | reflexivity]|].
    destruct pa; simpl;
      [intros [= <-]; simpl; split; [repeat constructor; lia | reflexivity]|].
    destruct bu; simpl;
      [intros [= <-]; simpl; split; [repeat constructor; lia | reflexivity]|].
    unfold create_decision; simpl.
    destruct hp; [destruct (type tc)|]; destruct send_ok; simpl;
      intros [= <-]; simpl; (split; [repeat constructor; lia | reflexivity]).
  - destruct exited0, ru; simpl;
      intros [= <-]; simpl; (split; [repeat constructor; lia | reflexivity]).
  - destruct exited0, returned0; simpl;
      try (destruct lc; simpl; [|discriminate]);
      intros [= <-]; simpl; (split; [repeat constructor; lia | reflexivity]).
  - destruct lc; simpl; [|discriminate].
    intros [= <-]; simpl; split; [repeat constructor; lia | reflexivity].
  - destruct lc; simpl; [|discriminate].
    intros [= <-]; simpl; split; [repeat constructor; lia | reflexivity].
  - unfold dfo_busy_callback; simpl.
    destruct (TriggerInhibit.run_number inhibit =? rn); simpl;
      [destruct lc; simpl; [|discriminate]|];
      intros [= <-]; simpl; (split; [repeat constructor; lia | reflexivity]).
  - intros [= <-]; simpl; split; [repeat constructor; lia | reflexivity].
Qed.

Lemma run_counters (evs : list Event) (w w' : World) :
  run evs w = Some w' ->
  Forall2 (fun c c' => c <= c' <= c + Z.of_nat (length evs))
    (counters (mlt w)) (counters (mlt w'))
  /\ configuration (mlt w') = configuration (mlt w).
Proof.
  revert w. induction evs as [|e evs IH]; intros w; simpl.
  - intros [= <-]. split; [|reflexivity].
    apply Forall2_same_length_lookup_2; [reflexivity|].
    intros i c c' Hc Hc'. assert (c = c') by congruence. lia.
  - destruct (step e w) as [w1|] eqn:Hstep; simpl; [|discriminate].
    intros Hrun. destruct (step_counters e w w1 Hstep) as [H1 F1].
    destruct (IH w1 Hrun) as [H2 F2]. split; [|congruence].
    apply Forall2_same_length_lookup_2.
    + apply Forall2_length in H1, H2. congruence.
    + intros i c c' Hc Hc'.
      destruct (Forall2_lookup_l _ _ _ _ _ H1 Hc) as (c1 & Hc1 & ?).
      destruct (Forall2_lookup_l _ _ _ _ _ H2 Hc1) as (c2 & Hc2 & ?).
      assert (c2 = c') by congruence. lia.
Qed.

(** In a run of [n] events every counter of the loop lies between 0 and
    [n]: the code's fixed-width counters hold these very values as long as
    a run has fewer events than their range. *)
Lemma counters_bounded (run_number now : Z) (w w' : World) (evs : list Event) :
  run evs (start_run run_number now w) = Some w' ->
  Forall (fun c => 0 <= c <= Z.of_nat (length evs)) (counters (mlt w')).
Proof.
  intros Hrun. apply run_counters in Hrun as [H _].
  assert (H0 : counters (mlt (start_run run_number now w)) = [0; 0; 0; 0; 0; 0]).
  { destruct w as [m sends0 warnings0 errors0 exited0 returned0]. by destruct m. }
  rewrite H0 in H.
  apply Forall_lookup_2. intros i c' Hc'.
  destruct (Forall2_lookup_r _ _ _ _ _ H Hc') as (c & Hc & ?).
  assert (c = 0).
  { apply list_elem_of_lookup_2 in Hc.
    repeat (apply elem_of_cons in Hc as [->|Hc]; [reflexivity|]).
    by apply elem_of_nil in Hc. }
  lia.
Qed.

(** What one event does to the decisions sent, to the trigger number and
    to the sent counter; the livetime counter stays allocated. *)
Lemma step_effect (e : Event) (w : World) :
  is_Some (m_livetime_counter (mlt w)) ->
  exists w' : World,
    step e w = Some w'
    /\ is_Some (m_livetime_counter (mlt w'))
    /\ if delivers e w then
         exists d : TriggerDecision.t,
           sent w' = sent w ++ [d]
           /\ TriggerDecision.trigger_number d = m_last_trigger_number (mlt w) + 1
           /\ m_last_trigger_number (mlt w') = m_last_trigger_number (mlt w) + 1
           /\ m_td_sent_count (mlt w') = m_td_sent_count (mlt w) + 1
       else
         sent w' = sent w
         /\ m_last_trigger_number (mlt w') = m_last_trigger_number (mlt w)
         /\ m_td_sent_count (mlt w') = m_td_sent_count (mlt w).
Proof.
  intros [lc0 Hlc].
  destruct w as [m sends0 warnings0 errors0 exited0 returned0].
  destruct m as [tn rn ls hp ts cf pa ru bu lc rc sc ic pc tc0 ec kl kp kd klc kpc kdc dt].
  simpl in Hlc. subst lc.
  destruct e as [[tc|] send_ok | t1 t2 t3 t4 t5 | now | now | inhibit now |]; simpl.
  - destruct exited0; simpl; [eexists; split; [reflexivity|]; simpl; by eauto|].
    destruct pa; simpl; [eexists; split; [reflexivity|]; simpl; by eauto|].
    destruct bu; simpl; [eexists; split; [reflexivity|]; simpl; by eauto|].
    unfold create_decision; simpl.
    destruct hp; [destruct (type tc)|]; destruct send_ok; simpl;
      (eexists; split; [reflexivity|]; simpl; split; [by eauto|]);
      unfold sent; simpl; rewrite ?filter_app, ?map_app; simpl;
      rewrite ?app_nil_r; eauto.
  - destruct exited0; simpl; [eexists; split; [reflexivity|]; simpl; by eauto|].
    destruct ru; simpl; eexists; (split; [reflexivity|]); simpl; by eauto.
  - destruct exited0, returned0; simpl;
      eexists; (split; [reflexivity|]); simpl; by eauto.
  - eexists; split; [reflexivity|]; simpl; by eauto.
  - eexists; split; [reflexivity|]; simpl; by eauto.
  - unfold dfo_busy_callback; simpl.
    destruct (TriggerInhibit.run_number inhibit =? rn); simpl;
      eexists; (split; [reflexivity|]); simpl; by eauto.
  - eexists; split; [reflexivity|]; simpl; by eauto.
Qed.

Lemma numbered_start (run_number now : Z) (w : World) :
  numbered (sent w) (start_run run_number now w).
Proof.
  destruct w as [m sends0 warnings0 errors0 exited0 returned0].
  destruct m as [tn rn ls hp ts cf pa ru bu lc rc sc ic pc tc0 ec kl kp kd klc kpc kdc dt].
  split; [by eexists|]. exists []. simpl. unfold sent; simpl.
  by rewrite app_nil_r.
Qed.

Lemma numbered_step (base : list TriggerDecision.t) (e : Event) (w : World) :
  numbered base w ->
  exists w' : World, step e w = Some w' /\ numbered base w'.
Proof.
  intros (Hlc & new & Hsent & Hnum & Htn & Hsc).
  destruct (step_effect e w Hlc) as (w' & Hstep & Hlc' & Heff).
  exists w'. split; [exact Hstep|]. split; [exact Hlc'|].
  destruct (delivers e w).
  - destruct Heff as (d & Hs & Hd & Htn' & Hsc').
    exists (new ++ [d]). rewrite length_app, Nat.add_1_r. simpl length.
    repeat split.
    + by rewrite Hs, Hsent, app_assoc.
    + rewrite map_app, Hnum, seq_S, map_app. simpl. f_equal. f_equal. lia.
    + lia.
    + lia.
  - destruct Heff as (Hs & Htn' & Hsc').
    exists new. repeat split; congruence.
Qed.

Lemma numbered_run (base : list TriggerDecision.t) (evs : list Event) (w : World) :
  numbered base w ->
  exists w' : World, run evs w = Some w' /\ numbered base w'.
Proof.
  revert w. induction evs as [|e evs IH]; intros w Hw.
  - exists w. by split.
  - destruct (numbered_step base e w Hw) as (w1 & Hstep & Hw1).
    destruct (IH w1 Hw1) as (w' & Hrun & Hw').
    exists w'. split; [|exact Hw']. simpl. rewrite Hstep. exact Hrun.
Qed.

Lemma NoDup_numbers (n : nat) : NoDup (map Z.of_nat (seq 1 n)).
Proof.
  apply (NoDup_fmap_2 Z.of_nat). apply NoDup_ListNoDup, List.seq_NoDup.
Qed.

(** C1.  A run starts with trigger number 0.  After any sequence of
    events of the run (passes of the loop with or without a candidate,
    sends that succeed or fail, pause, resume, busy notifications, the
    stop request, in any interleaving) the decisions sent since the start
    carry the trigger numbers 1, 2, ..., n in that order, without
    duplicates, and the trigger number of the module is n.  From any such
    state, the next event adds exactly 1 to the trigger number when it is
    a pass whose send succeeds, the decision sent carrying the old number
    plus 1, and leaves the trigger number and the decisions sent alone
    otherwise.  Every decision is built with [m_last_trigger_number + 1]. *)
Theorem trigger_numbers_contiguous
    (run_number now : Z) (w : World) (evs : list Event) :
  let w0 := start_run run_number now w in
  m_last_trigger_number (mlt w0) = 0
  /\ (exists (w' : World) (new : list TriggerDecision.t),
        run evs w0 = Some w'
        /\ sent w' = sent w ++ new
        /\ map TriggerDecision.trigger_number new = map Z.of_nat (seq 1 (length new))
        /\ NoDup (map TriggerDecision.trigger_number new)
        /\ m_last_trigger_number (mlt w') = Z.of_nat (length new)
        /\ forall e : Event,
             exists w'' : World,
               step e w' = Some w''
               /\ if delivers e w' then
                    exists d : TriggerDecision.t,
                      sent w'' = sent w' ++ [d]
                      /\ TriggerDecision.trigger_number d
                         = m_last_trigger_number (mlt w') + 1
                      /\ m_last_trigger_number (mlt w'')
                         = m_last_trigger_number (mlt w') + 1
                  else
                    sent w'' = sent w'
                    /\ m_last_trigger_number (mlt w'') = m_last_trigger_number (mlt w'))
  /\ (forall (tc : TriggerCandidate.t) (m : ModuleLevelTrigger.t),
        TriggerDecision.trigger_number (fst (create_decision tc m))
        = m_last_trigger_number m + 1).
Proof.
  cbv zeta. split; [|split].
  - by expose w.
  - destruct (numbered_run (sent w) evs _ (numbered_start run_number now w))
      as (w' & Hrun & Hlc & new & Hsent & Hnum & Htn & _).
    exists w', new. repeat split; try assumption.
    + rewrite Hnum. apply NoDup_numbers.
    + intros e. destruct (step_effect e w' Hlc) as (w'' & Hstep & _ & Heff).
      exists w''. split; [exact Hstep|].
      destruct (delivers e w').
      * destruct Heff as (d & ? & ? & ? & _). by exists d.
      * destruct Heff as (? & ? & _). by split.
  - apply create_decision_trigger_number.
Qed.

(** Once the thread has left the loop nothing is handed to the sender any
    more, whatever happens next. *)
Lemma step_after_exit (e : Event) (w : World) :
  is_Some (m_livetime_counter (mlt w)) ->
  loop_exited w = true ->
  exists w' : World,
    step e w = Some w'
    /\ is_Some (m_livetime_counter (mlt w'))
    /\ loop_exited w' = true
    /\ sends w' = sends w.
Proof.
  intros [lc0 Hlc] Hex.
  destruct w as [m sends0 warnings0 errors0 exited0 returned0].
  destruct m as [tn rn ls hp ts cf pa ru bu lc rc sc ic pc tc0 ec kl kp kd klc kpc kdc dt].
  simpl in *. subst.
  destruct e as [poll send_ok | t1 t2 t3 t4 t5 | now | now | inhibit now |]; simpl;
    try (eexists; split; [reflexivity|]; simpl; by eauto).
  - destruct returned0; simpl; eexists; (split; [reflexivity|]); simpl; by eauto.
  - unfold dfo_busy_callback; simpl.
    destruct (TriggerInhibit.run_number inhibit =? rn); simpl;
      eexists; (split; [reflexivity|]); simpl; by eauto.
Qed.

Lemma run_after_exit (evs : list Event) (w : World) :
  is_Some (m_livetime_counter (mlt w)) ->
  loop_exited w = true ->
  exists w' : World,
    run evs w = Some w' /\ loop_exited w' = true /\ sends w' = sends w.
Proof.
  revert w. induction evs as [|e evs IH]; intros w Hlc Hex.
  - exists w. by repeat split.
  - destruct (step_after_exit e w Hlc Hex) as (w1 & Hstep & Hlc1 & Hex1 & Hs1).
    destruct (IH w1 Hlc1 Hex1) as (w' & Hrun & Hex' & Hs').
    exists w'. simpl. rewrite Hstep. repeat split; [exact Hrun|exact Hex'|congruence].
Qed.

(** C7.  A pass of the loop ends in [break] exactly when the poll returned
    no candidate and the running flag is down.  A poll that returns
    nothing while the flag is up changes nothing and the loop polls again.
    A candidate that was received is processed whatever the flag says.
    And once a pass has found the source empty with the flag down, the
    thread is out of the loop and nothing that happens afterwards, the end
    of the thread's function included, hands a decision to the sender. *)
Theorem loop_exit_condition
    (poll : option TriggerCandidate.t) (send_ok : bool) (w : World) (evs : list Event) :
  (snd (loop_body poll send_ok w) = Break
   <-> poll = None /\ m_running_flag (mlt w) = false)
  /\ (poll = None -> m_running_flag (mlt w) = true ->
      loop_body poll send_ok w = (w, Continue))
  /\ (forall tc : TriggerCandidate.t, poll = Some tc ->
      snd (loop_body poll send_ok w) = Continue
      /\ m_tc_received_count (mlt (fst (loop_body poll send_ok w)))
         = m_tc_received_count (mlt w) + 1
      /\ m_td_total_count (mlt (fst (loop_body poll send_ok w)))
         = m_td_total_count (mlt w) + 1)
  /\ (is_Some (m_livetime_counter (mlt w)) ->
      loop_exited w = false ->
      poll = None -> m_running_flag (mlt w) = false ->
      exists w1 w' : World,
        step (Iteration poll send_ok) w = Some w1
        /\ loop_exited w1 = true
        /\ run evs w1 = Some w'
        /\ loop_exited w' = true
        /\ sends w' = sends w).
Proof.
  split; [|split; [|split]].
  - destruct poll as [tc|]; simpl.
    + split; [discriminate | intros [? _]; discriminate].
    + destruct (m_running_flag (mlt w)); simpl; split;
        try discriminate; try (intros [_ ?]; discriminate); by auto.
  - intros -> Hru. simpl. by rewrite Hru.
  - intros tc ->. split; [reflexivity|].
    destruct (loop_body_candidate_counters tc send_ok w) as (? & ? & _). by split.
  - intros Hlc Hex -> Hru.
    assert (Hstep : step (Iteration None send_ok) w = Some (set_loop_exited true w)).
    { unfold step. rewrite Hex. simpl. by rewrite Hru. }
    destruct (run_after_exit evs (set_loop_exited true w)) as (w' & Hrun & Hex' & Hs');
      [exact Hlc | reflexivity |].
    exists (set_loop_exited true w), w'. by repeat split.
Qed.

Lemma loop_exit_condition_witness :
  exists w w' : World,
    run [Resume 1010; StopRequest] (Scenario.started false) = Some w
    /\ (is_Some (m_livetime_counter (mlt w))
        /\ loop_exited w = false
        /\ m_running_flag (mlt w) = false)
    /\ snd (loop_body None true w) = Break
    /\ run [Iteration None true; Epilogue 1030 1030 1031 1031 1032;
            Iteration (Some Scenario.candidate) true; Pause 1040] w
       = Some w'
    /\ loop_exited w' = true
    /\ sends w' = sends w.
Proof.
  eexists.
  match goal with
  | |- exists w', run ?evs ?w0 = Some ?w /\ _ =>
      assert (Hrun : run evs w0 = Some w) by (vm_compute; reflexivity)
  end.
  match type of Hrun with
  | _ = Some ?w =>
      destruct (loop_exit_condition None true w
                  [Epilogue 1030 1030 1031 1031 1032;
                   Iteration (Some Scenario.candidate) true; Pause 1040])
        as (Hbreak & _ & _ & Hafter);
      assert (Hlc : is_Some (m_livetime_counter (mlt w))) by (by eexists);
      destruct (Hafter Hlc eq_refl eq_refl eq_refl)
        as (w1 & w' & Hstep & _ & Hrun' & Hex' & Hsends)
  end.
  exists w'. split; [exact Hrun|]. split; [by repeat split|].
  split; [apply Hbreak; by split|].
  split; [|by split].
  change (run (?e :: ?evs) ?w) with (w2 ← step e w; run evs w2).
  rewrite Hstep. exact Hrun'.
Defined.

End DecisionLoopFacts.

(** ** The TPSet buffer *)

Module BufferManagerFacts.

Import BufferManager.

Lemma TPSetCmp_lt (a b : TPSet) : TPSetCmp a b = true <-> start_time a < start_time b.
Proof. unfold TPSetCmp. apply Z.ltb_lt. Qed.

Lemma equivalent_start_time (a b : TPSet) :
  equivalent a b = (start_time a =? start_time b).
Proof. unfold equivalent, TPSetCmp. lia. Qed.

Lemma ascending_cons (x : TPSet) (b : buffer) :
  ascending (x :: b) <-> ascending b /\ Forall (fun y => TPSetCmp x y = true) b.
Proof.
  split.
  - intros H. by apply StronglySorted_inv in H.
  - intros [? ?]. by constructor.
Qed.

Lemma set_insert_Forall (P : TPSet -> Prop) (tps : TPSet) (b : buffer) :
  P tps -> Forall P b -> Forall P (fst (set_insert tps b)).
Proof.
  intros Htps. induction b as [|x b IH]; intros Hb; simpl.
  - by constructor.
  - apply Forall_cons in Hb as [Hx Hb].
    destruct (TPSetCmp tps x); simpl; [by repeat constructor|].
    destruct (TPSetCmp x tps); simpl; [|by constructor].
    destruct (set_insert tps b) as [r inserted]; simpl in *.
    constructor; [exact Hx | by apply IH].
Qed.

Lemma set_insert_ascending (tps : TPSet) (b : buffer) :
  ascending b -> ascending (fst (set_insert tps b)).
Proof.
  induction b as [|x b IH]; intros Hb; simpl.
  - apply ascending_cons. split; constructor.
  - pose proof Hb as Hxb. apply ascending_cons in Hb as [Hb Hx].
    destruct (TPSetCmp tps x) eqn:Htx; simpl.
    + apply ascending_cons. split; [exact Hxb|].
      constructor; [exact Htx|].
      eapply Forall_impl; [exact Hx|]. simpl. intros y Hy.
      apply TPSetCmp_lt in Htx, Hy. apply TPSetCmp_lt. lia.
    + destruct (TPSetCmp x tps) eqn:Hxt; simpl; [|exact Hxb].
      pose proof (set_insert_Forall (fun y => TPSetCmp x y = true) tps b Hxt Hx) as HF.
      specialize (IH Hb).
      destruct (set_insert tps b) as [r inserted]; simpl in *.
      apply ascending_cons. by split.
Qed.

(** The flag of [insert] is [false] exactly when an equivalent element is
    stored, and then the set is left as it was. *)
Lemma set_insert_flag (tps : TPSet) (b : buffer) :
  ascending b ->
  snd (set_insert tps b) = negb (existsb (equivalent tps) b).
Proof.
  induction b as [|x b IH]; intros Hb; simpl; [reflexivity|].
  apply ascending_cons in Hb as [Hb Hx].
  unfold equivalent at 1.
  destruct (TPSetCmp tps x) eqn:Htx; simpl.
  - symmetry. apply negb_true_iff, not_true_iff_false. intros Hex.
    apply existsb_exists in Hex as (y & Hy & Heq).
    rewrite equivalent_start_time in Heq. apply Z.eqb_eq in Heq.
    rewrite Forall_forall in Hx. apply list_elem_of_In in Hy.
    specialize (Hx y Hy). apply TPSetCmp_lt in Htx, Hx. lia.
  - destruct (TPSetCmp x tps) eqn:Hxt; simpl; [|reflexivity].
    specialize (IH Hb). destruct (set_insert tps b) as [r inserted]; simpl in *.
    exact IH.
Qed.

Lemma set_insert_rejected (tps : TPSet) (b : buffer) :
  snd (set_insert tps b) = false -> fst (set_insert tps b) = b.
Proof.
  induction b as [|x b IH]; simpl; [discriminate|].
  destruct (TPSetCmp tps x); simpl; [discriminate|].
  destruct (TPSetCmp x tps); simpl; [|reflexivity].
  destruct (set_insert tps b) as [r inserted]; simpl in *.
  intros H. by rewrite IH.
Qed.

Lemma set_insert_inserted (tps : TPSet) (b : buffer) :
  snd (set_insert tps b) = true ->
  In tps (fst (set_insert tps b))
  /\ length (fst (set_insert tps b)) = S (length b).
Proof.
  induction b as [|x b IH]; simpl; [by auto|].
  destruct (TPSetCmp tps x); simpl; [by auto|].
  destruct (TPSetCmp x tps); simpl; [|discriminate].
  destruct (set_insert tps b) as [r inserted]; simpl in *.
  intros H. destruct (IH H) as [? ?]. split; [by right | by f_equal].
Qed.

Lemma evict_drop (fuel capacity : nat) (b : buffer) :
  (length b - capacity <= fuel)%nat ->
  evict fuel capacity b = drop (length b - capacity) b.
Proof.
  revert b. induction fuel as [|fuel IH]; intros b Hf; simpl.
  - replace (length b - capacity)%nat with 0%nat by lia. reflexivity.
  - destruct (capacity <? length b)%nat eqn:Hc.
    + apply Nat.ltb_lt in Hc. destruct b as [|x b]; simpl in *; [lia|].
      rewrite IH by lia.
      replace (S (length b) - capacity)%nat with (S (length b - capacity)) by lia.
      reflexivity.
    + apply Nat.ltb_ge in Hc.
      replace (length b - capacity)%nat with 0%nat by lia. reflexivity.
Qed.

Lemma ascending_drop (n : nat) (b : buffer) : ascending b -> ascending (drop n b).
Proof.
  revert b. induction n as [|n IH]; intros b Hb; [by rewrite drop_0|].
  destruct b as [|x b]; simpl; [exact Hb|].
  apply IH. by apply ascending_cons in Hb as [? _].
Qed.

Lemma ascending_NoDup (b : buffer) : ascending b -> NoDup (map start_time b).
Proof.
  induction b as [|x b IH]; intros Hb; simpl; [constructor|].
  apply ascending_cons in Hb as [Hb Hx].
  constructor; [|by apply IH].
  intros Hin. apply list_elem_of_In, in_map_iff in Hin as (y & Heq & Hy).
  rewrite Forall_forall in Hx. apply list_elem_of_In in Hy.
  specialize (Hx y Hy). apply TPSetCmp_lt in Hx. lia.
Qed.

Lemma add_ok (capacity : nat) (tps : TPSet) (b : buffer) :
  buffer_ok capacity b -> buffer_ok capacity (fst (add capacity tps b)).
Proof.
  intros [Hasc Hlen]. unfold add.
  pose proof (set_insert_ascending tps b Hasc) as Hasc'.
  destruct (set_insert tps b) as [b' inserted]; simpl in *.
  rewrite evict_drop by lia. split.
  - by apply ascending_drop.
  - rewrite length_drop. lia.
Qed.

Lemma add_all_ok (capacity : nat) (l : list TPSet) (b : buffer) :
  buffer_ok capacity b -> buffer_ok capacity (add_all capacity l b).
Proof.
  revert b. induction l as [|tps l IH]; intros b Hb; simpl; [exact Hb|].
  apply IH. by apply add_ok.
Qed.

Lemma existsb_same_start_time (tps : TPSet) (b : buffer) :
  existsb (fun x => start_time x =? start_time tps) b = existsb (equivalent tps) b.
Proof.
  induction b as [|x b IH]; simpl; [reflexivity|].
  rewrite IH, equivalent_start_time, (Z.eqb_sym (start_time x)). reflexivity.
Qed.

(** C8.  The ordering looks at [start_time] only: two intervals are
    equivalent for the set exactly when their start times are equal.
    Hence a buffer built by any sequence of [add] calls never holds two
    intervals with the same start time, before or after a further [add].
    [add] returns the flag of the insertion: [false] exactly when an
    interval with that start time is already stored, in which case the
    buffer is left as it was (no second entry, the stored one is kept),
    and [true] otherwise, in which case the insertion added the interval
    as one new entry. *)
Theorem buffer_start_times_unique
    (capacity : nat) (history : list TPSet) (tps : TPSet) :
  let b := add_all capacity history [] in
  (forall x y : TPSet, equivalent x y = (start_time x =? start_time y))
  /\ NoDup (map start_time b)
  /\ NoDup (map start_time (fst (add capacity tps b)))
  /\ snd (add capacity tps b) = snd (set_insert tps b)
  /\ snd (add capacity tps b)
     = negb (existsb (fun x => start_time x =? start_time tps) b)
  /\ if existsb (fun x => start_time x =? start_time tps) b then
       add capacity tps b = (b, false)
     else
       In tps (fst (set_insert tps b))
       /\ length (fst (set_insert tps b)) = S (length b).
Proof.
  cbv zeta.
  assert (Hok : buffer_ok capacity (add_all capacity history [])).
  { apply add_all_ok. split; [constructor | simpl; lia]. }
  revert Hok. generalize (add_all capacity history []). intros b [Hasc Hlen].
  assert (Hflag : snd (add capacity tps b) = snd (set_insert tps b)).
  { unfold add. by destruct (set_insert tps b). }
  pose proof (existsb_same_start_time tps b) as Hex.
  pose proof (set_insert_flag tps b Hasc) as Hsi.
  split; [exact equivalent_start_time|].
  split; [by apply ascending_NoDup|].
  split; [apply ascending_NoDup; by apply (add_ok capacity tps b)|].
  split; [exact Hflag|].
  split; [by rewrite Hflag, Hsi, Hex|].
  rewrite Hex. clear Hflag Hex.
  destruct (existsb (equivalent tps) b); simpl in Hsi.
  - unfold add. pose proof (set_insert_rejected tps b Hsi) as Hrej.
    destruct (set_insert tps b) as [b' inserted]; simpl in *. subst.
    rewrite evict_drop by lia.
    replace (length b - capacity)%nat with 0%nat by lia. reflexivity.
  - by apply set_insert_inserted.
Qed.

End BufferManagerFacts.

(** ** From a timing datum to the trigger type *)

Module TimingFacts.

Import TriggerCandidate ModuleLevelTrigger TimingTriggerCandidateMaker.

Lemma subscript_present (k : Z) (m : offsets_map) :
  is_Some (m !! k) -> snd (subscript k m) = m.
Proof. intros [v Hv]. unfold subscript. by rewrite Hv. Qed.

Lemma candidate_type (data : TimeStampedData.t) (m : offsets_map) :
  type (fst (TimeStampedDataToTriggerCandidate data m)) = kTiming.
Proof.
  unfold TimeStampedDataToTriggerCandidate.
  destruct (subscript _ m) as [o1 m1]. by destruct (subscript _ m1).
Qed.

Lemma candidate_detid (data : TimeStampedData.t) (m : offsets_map) :
  detid (fst (TimeStampedDataToTriggerCandidate data m))
  = wrap16 (TimeStampedData.signal_type data).
Proof.
  unfold TimeStampedDataToTriggerCandidate.
  destruct (subscript _ m) as [o1 m1]. by destruct (subscript _ m1).
Qed.

Lemma candidate_map (data : TimeStampedData.t) (m : offsets_map) :
  is_Some (m !! TimeStampedData.signal_type data) ->
  snd (TimeStampedDataToTriggerCandidate data m) = m.
Proof.
  intros Hin. unfold TimeStampedDataToTriggerCandidate.
  pose proof (subscript_present _ m Hin) as H1.
  destruct (subscript _ m) as [o1 m1]. simpl in H1. subst m1.
  pose proof (subscript_present _ m Hin) as H2.
  destruct (subscript _ m) as [o2 m2]. exact H2.
Qed.

Lemma passthrough_timing_trigger_type (tc : TriggerCandidate.t) (m : ModuleLevelTrigger.t) :
  m_hsi_passthrough m = true ->
  type tc = kTiming ->
  TriggerDecision.trigger_type (fst (create_decision tc m)) = detid tc mod 256.
Proof.
  intros Hp Ht. unfold create_decision. rewrite Hp, Ht. simpl.
  apply CreateDecisionFacts.low_8_bits.
Qed.

(** C10, as the code has it.  For a timing datum whose signal type [s] is
    a key of the offsets map, the candidate has type Timing and its
    detector id is [s] narrowed to 16 bits, that is [s mod 65536], which
    is [s] itself when [s < 65536]; the conversion leaves the map as it
    is.  A decision built from the candidate with pass-through enabled
    has trigger type [s mod 256]; for [s < 256] that is the signal type
    itself. *)
Theorem timing_signal_type_to_trigger_type
    (data : TimeStampedData.t) (offsets : offsets_map) (m : ModuleLevelTrigger.t) :
  0 <= TimeStampedData.signal_type data ->
  is_Some (offsets !! TimeStampedData.signal_type data) ->
  m_hsi_passthrough m = true ->
  let s := TimeStampedData.signal_type data in
  let candidate := fst (TimeStampedDataToTriggerCandidate data offsets) in
  let decision := fst (create_decision candidate m) in
  snd (TimeStampedDataToTriggerCandidate data offsets) = offsets
  /\ type candidate = kTiming
  /\ detid candidate = s mod 65536
  /\ (s < 65536 -> detid candidate = s)
  /\ TriggerDecision.trigger_type decision = s mod 256
  /\ (s < 256 -> TriggerDecision.trigger_type decision = s).
Proof.
  intros Hs Hin Hp. cbv zeta.
  assert (Ht : TriggerDecision.trigger_type
                 (fst (create_decision
                         (fst (TimeStampedDataToTriggerCandidate data offsets)) m))
               = TimeStampedData.signal_type data mod 256).
  { rewrite passthrough_timing_trigger_type by (exact Hp || apply candidate_type).
    rewrite candidate_detid. unfold wrap16.
    apply Z.mod_mod_divide. by exists 256. }
  split; [by apply candidate_map|].
  split; [apply candidate_type|].
  split; [apply candidate_detid|].
  split; [intros Hlt; rewrite candidate_detid; unfold wrap16; apply Z.mod_small; lia|].
  split; [exact Ht|].
  intros Hlt. rewrite Ht. apply Z.mod_small. lia.
Qed.

Lemma timing_signal_type_to_trigger_type_witness :
  let data := TimeStampedData.mk 300 1000 0 in
  let offsets :=
    do_conf (mkConf (mkSignalConf 300 10 20) (mkSignalConf 1 5 5) (mkSignalConf 2 0 8)) ∅ in
  let m := do_configure (mkConfParams [] true) ModuleLevelTrigger in
  let candidate := fst (TimeStampedDataToTriggerCandidate data offsets) in
  (0 <= 300 /\ is_Some (offsets !! 300) /\ m_hsi_passthrough m = true)
  /\ detid candidate = 300 mod 65536
  /\ TriggerDecision.trigger_type (fst (create_decision candidate m)) = 300 mod 256.
Proof.
  cbv zeta.
  assert (H0 : 0 <= 300) by lia.
  assert (H1 : is_Some
                 (do_conf (mkConf (mkSignalConf 300 10 20) (mkSignalConf 1 5 5)
                             (mkSignalConf 2 0 8)) ∅ !! 300)).
  { by eexists. }
  assert (H2 : m_hsi_passthrough (do_configure (mkConfParams [] true) ModuleLevelTrigger)
               = true) by reflexivity.
  split; [by repeat split|].
  destruct (timing_signal_type_to_trigger_type
              (TimeStampedData.mk 300 1000 0)
              (do_conf (mkConf (mkSignalConf 300 10 20) (mkSignalConf 1 5 5)
                          (mkSignalConf 2 0 8)) ∅)
              (do_configure (mkConfParams [] true) ModuleLevelTrigger) H0 H1 H2)
    as (_ & _ & Hd & _ & Ht & _).
  split; [exact Hd | exact Ht].
Defined.

(** The claim as the spec words it, "detector id [s]", fails for a signal
    type that does not fit 16 bits: signal type 65541, a key of the
    offsets map, yields detector id 5. *)
Lemma timing_detid_narrowed_counterexample :
  let data := TimeStampedData.mk 65541 1000 0 in
  let offsets :=
    do_conf (mkConf (mkSignalConf 65541 10 20) (mkSignalConf 1 5 5) (mkSignalConf 2 0 8)) ∅ in
  let candidate := fst (TimeStampedDataToTriggerCandidate data offsets) in
  is_Some (offsets !! TimeStampedData.signal_type data)
  /\ type candidate = kTiming
  /\ detid candidate = 5
  /\ detid candidate <> TimeStampedData.signal_type data.
Proof.
  cbv zeta. split; [by eexists|]. split; [reflexivity|].
  split; [reflexivity|]. vm_compute. discriminate.
Qed.

End TimingFacts.

(** ** The scenarios of the specification *)

Module ScenarioFacts.

Import ModuleLevelTrigger Scenario.

(** Two links, pass-through disabled, run 7, triggers enabled, one
    candidate with window [100, 200] and time 150: one decision. *)
Example one_candidate_one_decision :
  (w ← run [Resume 1010; Iteration (Some candidate) true] (started false); Some (sent w))
  = Some [TriggerDecision.mk 1 7 150 1 kLocalized
            [ComponentRequest.mk link1 100 200; ComponentRequest.mk link2 100 200]].
Proof. vm_compute. reflexivity. Qed.

(** A run starts paused: without [enable_triggers] the candidate is
    counted as suppressed by the pause and nothing is sent. *)
Example start_is_paused :
  (w ← run [Iteration (Some candidate) true] (started false);
   Some (sent w, m_td_paused_count (mlt w), m_td_total_count (mlt w)))
  = Some ([], 1, 1).
Proof. vm_compute. reflexivity. Qed.

(** pause(), then three candidates. *)
Example paused_three_candidates :
  (w ← run [Resume 1010; Pause 1020;
            Iteration (Some candidate) true;
            Iteration (Some candidate) true;
            Iteration (Some candidate) true] (started false);
   Some (sends w, m_td_paused_count (mlt w), m_td_total_count (mlt w)))
  = Some ([], 3, 3).
Proof. vm_compute. reflexivity. Qed.

(** A busy notification for the active run, then a candidate. *)
Example busy_inhibits :
  (w ← run [Resume 1010; Inhibit (TriggerInhibit.mk true 7) 1020;
            Iteration (Some candidate) true] (started false);
   Some (sends w, m_td_inhibited_count (mlt w), gate_state (mlt w), warnings w))
  = Some ([], 1, Some LivetimeCounter.kDead, [7]).
Proof. vm_compute. reflexivity. Qed.

(** A notification with [busy = false] for the active run, received while
    triggers are enabled: the busy flag stays down and decisions keep
    going out, while the livetime counter is moved to Dead. *)
Example idle_notification_while_live :
  (w ← run [Resume 1010; Inhibit (TriggerInhibit.mk false 7) 1020;
            Iteration (Some candidate) true] (started false);
   Some (length (sent w), m_dfo_is_busy (mlt w), gate_state (mlt w)))
  = Some (1%nat, false, Some LivetimeCounter.kDead).
Proof. vm_compute. reflexivity. Qed.

(** A failed send between two successful ones: the numbers sent are 1, 2. *)
Example failed_send_keeps_numbers_contiguous :
  (w ← run [Resume 1010;
            Iteration (Some candidate) true;
            Iteration (Some candidate) false;
            Iteration (Some candidate) true] (started false);
   Some (map TriggerDecision.trigger_number (sent w),
         map TriggerDecision.trigger_number (attempted w),
         m_td_queue_timeout_expired_err_count (mlt w)))
  = Some ([1; 2], [1; 2; 2], 1).
Proof. vm_compute. reflexivity. Qed.

(** The livetime counter of a run: 10 ticks paused, 10 live, then dead. *)
Example livetime_of_a_run :
  (w ← run [Resume 1010; Inhibit (TriggerInhibit.mk true 7) 1020] (started false);
   lc ← m_livetime_counter (mlt w);
   Some (LivetimeCounter.get_time LivetimeCounter.kLive 1050 lc,
         LivetimeCounter.get_time LivetimeCounter.kPaused 1050 lc,
         LivetimeCounter.get_time LivetimeCounter.kDead 1050 lc))
  = Some (10, 10, 30).
Proof. vm_compute. reflexivity. Qed.

(** A whole run: 10 ticks paused, 20 live with one decision sent, the stop
    request, the empty poll that ends the loop, the end of the thread and
    of [do_stop]. *)
Example a_whole_run :
  (w ← run [Resume 1010; Iteration (Some candidate) true; Pause 1030; StopRequest;
            Iteration None true; Epilogue 1040 1040 1040 1041 1041] (started false);
   m ← do_stop_after_join 1050 1050 (mlt w);
   Some (length (sent w), loop_exited w, thread_returned w,
         (m_lc_kLive m, m_lc_kPaused m, m_lc_kDead m), m_lc_deadtime m,
         m_livetime_counter m))
  = Some (1%nat, true, true, (20, 20, 0), 30, None).
Proof. vm_compute. reflexivity. Qed.

(** Capacity 3, start times 10, 20, 30, 40: 20, 30 and 40 remain. *)
Example buffer_capacity_three :
  map BufferManager.start_time
    (BufferManager.add_all 3 [interval 10; interval 20; interval 30; interval 40] [])
  = [20; 30; 40].
Proof. vm_compute. reflexivity. Qed.

(** A second interval with start time 20 is rejected. *)
Example buffer_same_start_time :
  BufferManager.add 3 (BufferManager.mkTPSet 20 99 [1])
    (BufferManager.add_all 3 [interval 30; interval 10; interval 20] [])
  = ([interval 10; interval 20; interval 30], false).
Proof. vm_compute. reflexivity. Qed.

End ScenarioFacts.

(** ** TimingTriggerCandidateMaker: configuration and conversion *)

Module TimingMakerFacts.

Import TriggerCandidate TimingTriggerCandidateMaker.

(** What [do_conf] leaves in the offsets map, key by key: the entry of
    [s2], else that of [s1], else that of [s0] (of entries that share a
    signal type the later one wins), else whatever the map held before.
    Nothing is ever removed: a key present before is present afterwards. *)
Theorem do_conf_lookup (params : Conf) (m : offsets_map) (k : Z) :
  do_conf params m !! k
  = (if k =? signal_type (s2 params)
     then Some (time_before (s2 params), time_after (s2 params))
     else if k =? signal_type (s1 params)
     then Some (time_before (s1 params), time_after (s1 params))
     else if k =? signal_type (s0 params)
     then Some (time_before (s0 params), time_after (s0 params))
     else m !! k)
  /\ match m !! k with
     | Some _ => is_Some (do_conf params m !! k)
     | None => True
     end.
Proof.
  assert (H : do_conf params m !! k
              = if k =? signal_type (s2 params)
                then Some (time_before (s2 params), time_after (s2 params))
                else if k =? signal_type (s1 params)
                then Some (time_before (s1 params), time_after (s1 params))
                else if k =? signal_type (s0 params)
                then Some (time_before (s0 params), time_after (s0 params))
                else m !! k).
  { unfold do_conf, assign.
    destruct (Z.eqb_spec k (signal_type (s2 params))) as [->|H2];
      [by rewrite lookup_insert_eq|].
    rewrite lookup_insert_ne by congruence.
    destruct (Z.eqb_spec k (signal_type (s1 params))) as [->|H1];
      [by rewrite lookup_insert_eq|].
    rewrite lookup_insert_ne by congruence.
    destruct (Z.eqb_spec k (signal_type (s0 params))) as [->|H0];
      [by rewrite lookup_insert_eq|].
    by rewrite lookup_insert_ne by congruence. }
  split; [exact H|].
  destruct (m !! k) eqn:Hk; [|exact I].
  rewrite H.
  destruct (k =? signal_type (s2 params)); [by eexists|].
  destruct (k =? signal_type (s1 params)); [by eexists|].
  destruct (k =? signal_type (s0 params)); by eexists.
Qed.

(** A timing datum whose signal type is a key of the offsets map, with
    offsets [(before, after)] that overflow in neither direction: the
    candidate's window is [time_stamp - before, time_stamp + after], its
    time is [time_stamp], its algorithm and version are 0, its activity
    list is empty, and the map is as it was.  With offsets that are not
    negative the window contains the candidate's time. *)
Theorem configured_window
    (data : TimeStampedData.t) (m : offsets_map) (before after : Z) :
  m !! TimeStampedData.signal_type data = Some (before, after) ->
  before <= TimeStampedData.time_stamp data ->
  TimeStampedData.time_stamp data + after < 2 ^ 63 ->
  0 <= before ->
  0 <= after ->
  let ts := TimeStampedData.time_stamp data in
  TimeStampedDataToTriggerCandidate data m
  = (TriggerCandidate.mk (ts - before) (ts + after) ts
       (wrap16 (TimeStampedData.signal_type data)) kTiming 0 0 [],
     m)
  /\ ts - before <= ts <= ts + after.
Proof.
  intros Hm Hb Ha Hb0 Ha0. cbv zeta. split; [|lia].
  unfold TimeStampedDataToTriggerCandidate, subscript. rewrite Hm. simpl.
  rewrite Hm. simpl. unfold wrap64.
  rewrite !Z.mod_small by lia. reflexivity.
Qed.

Lemma configured_window_witness :
  let m := do_conf (mkConf (mkSignalConf 1 10 20) (mkSignalConf 2 5 5) (mkSignalConf 3 0 8)) ∅ in
  TimeStampedDataToTriggerCandidate (TimeStampedData.mk 1 1000 0) m
  = (TriggerCandidate.mk 990 1020 1000 1 kTiming 0 0 [], m).
Proof.
  cbv zeta.
  refine (proj1 (configured_window (TimeStampedData.mk 1 1000 0)
                   (do_conf (mkConf (mkSignalConf 1 10 20) (mkSignalConf 2 5 5)
                               (mkSignalConf 3 0 8)) ∅)
                   10 20 _ _ _ _ _)); [reflexivity | simpl; lia ..].
Defined.

(** A timing datum whose signal type is not a key of the offsets map is
    converted all the same: the lookup adds the key with offsets (0, 0),
    the window of the candidate is the single instant [time_stamp], and no
    error is raised.  The key stays: converting the datum again gives the
    same candidate and leaves the map alone. *)
Theorem unknown_signal_type_is_converted (data : TimeStampedData.t) (m : offsets_map) :
  m !! TimeStampedData.signal_type data = None ->
  0 <= TimeStampedData.time_stamp data < 2 ^ 63 ->
  let ts := TimeStampedData.time_stamp data in
  let candidate :=
    TriggerCandidate.mk ts ts ts (wrap16 (TimeStampedData.signal_type data)) kTiming 0 0 [] in
  let m' := <[TimeStampedData.signal_type data := (0, 0)]> m in
  TimeStampedDataToTriggerCandidate data m = (candidate, m')
  /\ TimeStampedDataToTriggerCandidate data m' = (candidate, m').
Proof.
  intros Hm Hts. cbv zeta.
  unfold TimeStampedDataToTriggerCandidate, subscript. rewrite Hm. simpl.
  rewrite !lookup_insert_eq. simpl. unfold wrap64.
  rewrite Z.sub_0_r, Z.add_0_r, !Z.mod_small by lia. by split.
Qed.

Lemma unknown_signal_type_is_converted_witness :
  TimeStampedDataToTriggerCandidate (TimeStampedData.mk 9 1000 0) ∅
  = (TriggerCandidate.mk 1000 1000 1000 9 kTiming 0 0 [], <[9 := (0, 0)]> ∅).
Proof.
  refine (proj1 (unknown_signal_type_is_converted (TimeStampedData.mk 9 1000 0) ∅ _ _));
    [reflexivity | simpl; lia].
Defined.

End TimingMakerFacts.

(** ** TimingTriggerCandidateMaker: the working thread *)

Module TimingThreadFacts.

Import TimingTriggerCandidateMaker TimingThread.

Lemma convert_all_snoc (data : list TimeStampedData.t) (d : TimeStampedData.t)
    (m : offsets_map) :
  convert_all (data ++ [d]) m
  = (fst (convert_all data m)
       ++ [fst (TimeStampedDataToTriggerCandidate d (snd (convert_all data m)))],
     snd (TimeStampedDataToTriggerCandidate d (snd (convert_all data m)))).
Proof.
  revert m. induction data as [|d0 data IH]; intros m; simpl.
  - by destruct (TimeStampedDataToTriggerCandidate d m).
  - destruct (TimeStampedDataToTriggerCandidate d0 m) as [c0 m0].
    rewrite IH. destruct (convert_all data m0) as [cs m1]. reflexivity.
Qed.

Lemma step_in_order (m0 : offsets_map) (e : Event) (s : State) :
  in_order m0 s -> in_order m0 (step e s).
Proof.
  intros [Hc Hr]. destruct s as [m ru p po pu wa]. unfold in_order, pending in *.
  simpl in *.
  destruct e as [[d|] | [|] |]; simpl.
  - destruct p; simpl; [|by split | by split].
    destruct ru; simpl; [|by split].
    destruct (TimeStampedDataToTriggerCandidate d m) as [c m1] eqn:Hd. simpl.
    split; [|discriminate].
    rewrite convert_all_snoc, Hc. simpl. rewrite Hd. simpl.
    by rewrite app_nil_r.
  - destruct p; simpl; [|by split | by split].
    destruct ru; simpl; by split.
  - destruct p; simpl; [by split | | by split].
    split; [|discriminate]. by rewrite app_nil_r.
  - destruct p; simpl; [by split | | by split].
    split; [exact Hc | discriminate].
  - split; [exact Hc|]. intros _. reflexivity.
Qed.

Lemma run_in_order (m0 : offsets_map) (evs : list Event) (s : State) :
  in_order m0 s -> in_order m0 (run evs s).
Proof.
  revert s. induction evs as [|e evs IH]; intros s Hs; [exact Hs|].
  apply IH. by apply step_in_order.
Qed.

(** [do_work] loses, repeats and reorders nothing: at any moment the
    candidates the output queue has accepted, followed by the candidate the
    thread may hold, are the conversions of the data taken from the input
    queue, in the order they were taken; the offsets map is the one those
    conversions leave.  A thread that has returned holds nothing: whatever
    it popped has been pushed. *)
Theorem do_work_in_order (m0 : offsets_map) (evs : list Event) :
  let s := run evs (do_start m0) in
  convert_all (popped s) m0 = (pushed s ++ pending s, m_detid_offsets_map s)
  /\ match pc s with
     | Returned => running_flag s = false /\ fst (convert_all (popped s) m0) = pushed s
     | _ => True
     end.
Proof.
  cbv zeta.
  destruct (run_in_order m0 evs (do_start m0)) as [Hc Hr]; [by split|].
  split; [exact Hc|].
  destruct (pc (run evs (do_start m0))) eqn:Hpc; try exact I.
  split; [by apply Hr|].
  rewrite Hc. unfold pending. rewrite Hpc. simpl. by rewrite app_nil_r.
Qed.

Lemma step_blocked (e : Event) (s : State) (candidate : TriggerCandidate.t) :
  pc s = AtPush candidate ->
  is_push_ok e = false ->
  pc (step e s) = AtPush candidate
  /\ pushed (step e s) = pushed s
  /\ popped (step e s) = popped s
  /\ warnings (step e s)
     = (warnings s + (if is_push_failure e then 1 else 0))%nat.
Proof.
  intros Hpc He. destruct s as [m ru p po pu wa]. simpl in *. subst p.
  destruct e as [pop | [|] |]; simpl in *;
    try done; repeat split; try reflexivity; lia.
Qed.

(** While the output queue accepts nothing the thread stays where it is:
    whatever else happens, the stop request included, it keeps the
    candidate it holds and keeps trying, with one warning per attempt that
    timed out; it pops nothing and it does not return. *)
Theorem blocked_push_ignores_stop
    (evs : list Event) (s : State) (candidate : TriggerCandidate.t) :
  pc s = AtPush candidate ->
  forallb (fun e => negb (is_push_ok e)) evs = true ->
  pc (run evs s) = AtPush candidate
  /\ pushed (run evs s) = pushed s
  /\ popped (run evs s) = popped s
  /\ warnings (run evs s) = (warnings s + length (filter (fun e => is_push_failure e = true) evs))%nat.
Proof.
  revert s. induction evs as [|e evs IH]; intros s Hpc Hevs; simpl in *.
  - repeat split; [exact Hpc | lia].
  - apply andb_true_iff in Hevs as [He Hevs]. apply negb_true_iff in He.
    destruct (step_blocked e s candidate Hpc He) as (Hpc1 & Hpu1 & Hpo1 & Hw1).
    destruct (IH (step e s) Hpc1 Hevs) as (Hpc2 & Hpu2 & Hpo2 & Hw2).
    change (run (e :: evs) s) with (run evs (step e s)).
    repeat split; try congruence.
    rewrite Hw2, Hw1.
    destruct (is_push_failure e) eqn:Hf.
    + rewrite filter_cons_True by exact Hf. simpl. lia.
    + rewrite filter_cons_False by congruence. lia.
Qed.

Lemma blocked_push_ignores_stop_witness :
  let s := run [Pass (Some (TimeStampedData.mk 1 1000 0))] (do_start ∅) in
  let evs := [PushAttempt false; Stop; PushAttempt false; Pass None; PushAttempt false] in
  pc (run evs s) = pc s /\ pushed (run evs s) = [] /\ warnings (run evs s) = 3%nat.
Proof.
  cbv zeta.
  assert (H0 : pc (run [Pass (Some (TimeStampedData.mk 1 1000 0))] (do_start ∅))
               = AtPush (TriggerCandidate.mk 1000 1000 1000 1 TriggerCandidate.kTiming 0 0 []))
    by (vm_compute; reflexivity).
  destruct (blocked_push_ignores_stop
              [PushAttempt false; Stop; PushAttempt false; Pass None; PushAttempt false]
              (run [Pass (Some (TimeStampedData.mk 1 1000 0))] (do_start ∅))
              (TriggerCandidate.mk 1000 1000 1000 1 TriggerCandidate.kTiming 0 0 [])
              H0 eq_refl)
    as (Hpc & Hpu & _ & Hw).
  split; [congruence|]. split; [exact Hpu | exact Hw].
Defined.

End TimingThreadFacts.

(** ** Runs of the decision loop *)

Module RunFacts.

Import TriggerCandidate ModuleLevelTrigger Traces.

(** What one event does to the log of sends and to the counters. *)
Lemma step_log (e : Event) (w w' : World) :
  step e w = Some w' ->
  match attempts e w with
  | Some (tc, ok) =>
      sends w' = sends w ++ [(fst (create_decision tc (mlt w)), ok)]
      /\ m_last_trigger_number (mlt w')
         = m_last_trigger_number (mlt w) + (if ok then 1 else 0)
      /\ m_td_sent_count (mlt w') = m_td_sent_count (mlt w) + (if ok then 1 else 0)
      /\ m_td_queue_timeout_expired_err_count (mlt w')
         = m_td_queue_timeout_expired_err_count (mlt w) + (if ok then 0 else 1)
      /\ m_tc_received_count (mlt w') = m_tc_received_count (mlt w) + 1
      /\ m_td_total_count (mlt w') = m_td_total_count (mlt w) + 1
      /\ m_td_paused_count (mlt w') = m_td_paused_count (mlt w)
      /\ m_td_inhibited_count (mlt w') = m_td_inhibited_count (mlt w)
  | None =>
      sends w' = sends w
      /\ m_last_trigger_number (mlt w') = m_last_trigger_number (mlt w)
      /\ m_td_sent_count (mlt w') = m_td_sent_count (mlt w)
      /\ m_td_queue_timeout_expired_err_count (mlt w')
         = m_td_queue_timeout_expired_err_count (mlt w)
      /\ m_td_total_count (mlt w') - m_td_total_count (mlt w)
         = m_tc_received_count (mlt w') - m_tc_received_count (mlt w)
      /\ 0 <= m_tc_received_count (mlt w') - m_tc_received_count (mlt w) <= 1
      /\ m_td_paused_count (mlt w')
         = m_td_paused_count (mlt w)
           + (if m_paused (mlt w)
              then m_tc_received_count (mlt w') - m_tc_received_count (mlt w) else 0)
      /\ m_td_inhibited_count (mlt w')
         = m_td_inhibited_count (mlt w)
           + (if m_paused (mlt w)
              then 0 else m_tc_received_count (mlt w') - m_tc_received_count (mlt w))
  end.
Proof.
  destruct w as [m sends0 warnings0 errors0 exited0 returned0].
  destruct m as [tn rn ls hp ts cf pa ru bu lc rc sc ic pc tc0 ec kl kp kd klc kpc kdc dt].
  destruct e as [[tc|] send_ok | t1 t2 t3 t4 t5 | now | now | inhibit now |]; simpl.
  - destruct exited0; simpl;
      [intros [= <-]; simpl; rewrite ?andb_false_r; simpl; destruct pa; repeat split; lia|].
    destruct pa; simpl; [intros [= <-]; simpl; repeat split; lia|].
    destruct bu; simpl; [intros [= <-]; simpl; repeat split; lia|].
    unfold create_decision; simpl.
    destruct hp; [destruct (type tc)|]; destruct send_ok; simpl;
      intros [= <-]; simpl; repeat split; lia.
  - destruct exited0, ru; simpl; intros [= <-]; simpl; destruct pa; repeat split; lia.
  - destruct exited0, returned0; simpl;
      try (destruct lc; simpl; [|discriminate]);
      intros [= <-]; simpl; destruct pa; repeat split; lia.
  - destruct lc; simpl; [|discriminate].
    intros [= <-]; simpl; destruct pa; repeat split; lia.
  - destruct lc; simpl; [|discriminate].
    intros [= <-]; simpl; destruct pa; repeat split; lia.
  - unfold dfo_busy_callback; simpl.
    destruct (TriggerInhibit.run_number inhibit =? rn); simpl;
      [destruct lc; simpl; [|discriminate]|];
      intros [= <-]; simpl; destruct pa; repeat split; lia.
  - intros [= <-]; simpl; destruct pa; repeat split; lia.
Qed.

(** What one event does to the two flags the loop looks at. *)
Lemma step_flags (e : Event) (w w' : World) :
  step e w = Some w' ->
  m_paused (mlt w')
  = match e with
    | Pause _ => true
    | Resume _ => false
    | _ => m_paused (mlt w)
    end
  /\ m_dfo_is_busy (mlt w')
     = match e with
       | Inhibit inhibit _ =>
           if TriggerInhibit.run_number inhibit =? m_run_number (mlt w)
           then TriggerInhibit.busy inhibit
           else m_dfo_is_busy (mlt w)
       | _ => m_dfo_is_busy (mlt w)
       end.
Proof.
  destruct w as [m sends0 warnings0 errors0 exited0 returned0].
  destruct m as [tn rn ls hp ts cf pa ru bu lc rc sc ic pc tc0 ec kl kp kd klc kpc kdc dt].
  destruct e as [[tc|] send_ok | t1 t2 t3 t4 t5 | now | now | inhibit now |]; simpl.
  - destruct exited0; simpl; [by intros [= <-]|].
    destruct pa; simpl; [by intros [= <-]|].
    destruct bu; simpl; [by intros [= <-]|].
    unfold create_decision; simpl.
    destruct hp; [destruct (type tc)|]; destruct send_ok; simpl; by intros [= <-].
  - destruct exited0, ru; simpl; by intros [= <-].
  - destruct exited0, returned0; simpl;
      try (destruct lc; simpl; [|discriminate]); by intros [= <-].
  - destruct lc; simpl; [|discriminate]. by intros [= <-].
  - destruct lc; simpl; [|discriminate]. by intros [= <-].
  - unfold dfo_busy_callback; simpl.
    destruct (TriggerInhibit.run_number inhibit =? rn); simpl;
      [destruct lc; simpl; [|discriminate]|]; by intros [= <-].
  - by intros [= <-].
Qed.

(** A run whose livetime counter exists never fails. *)
Lemma run_total (evs : list Event) (w : World) :
  is_Some (m_livetime_counter (mlt w)) ->
  exists w' : World, run evs w = Some w' /\ is_Some (m_livetime_counter (mlt w')).
Proof.
  revert w. induction evs as [|e evs IH]; intros w Hlc.
  - by exists w.
  - destruct (DecisionLoopFacts.step_effect e w Hlc) as (w1 & Hstep & Hlc1 & _).
    destruct (IH w1 Hlc1) as (w' & Hrun & Hlc').
    exists w'. simpl. rewrite Hstep. by split.
Qed.

(** A property that every allowed event keeps is kept by a run of allowed
    events. *)
Lemma run_keeps (allowed : Event -> bool) (P : World -> Prop) :
  (forall e w w', allowed e = true -> step e w = Some w' -> P w -> P w') ->
  forall evs w w',
    forallb allowed evs = true -> run evs w = Some w' -> P w -> P w'.
Proof.
  intros Hstep evs. induction evs as [|e evs IH]; intros w w' Hall Hrun HP; simpl in *.
  - by injection Hrun as <-.
  - apply andb_true_iff in Hall as [He Hall].
    destruct (step e w) as [w1|] eqn:Hs; simpl in Hrun; [|discriminate].
    eapply IH; [exact Hall | exact Hrun |]. eapply Hstep; eauto.
Qed.

Lemma start_run_counter (run_number now : Z) (w : World) :
  is_Some (m_livetime_counter (mlt (start_run run_number now w))).
Proof.
  destruct w as [m sends0 warnings0 errors0 exited0 returned0]. destruct m. by eexists.
Qed.

Lemma successes_snoc (oks : list bool) (ok : bool) :
  successes (oks ++ [ok]) = successes oks + (if ok then 1 else 0).
Proof.
  unfold successes. rewrite filter_app, length_app. destruct ok; simpl; lia.
Qed.

Lemma failures_snoc (oks : list bool) (ok : bool) :
  failures (oks ++ [ok]) = failures oks + (if ok then 0 else 1).
Proof.
  unfold failures. rewrite filter_app, length_app. destruct ok; simpl; lia.
Qed.

Lemma successes_cons (ok : bool) (oks : list bool) :
  successes (ok :: oks) = (if ok then 1 else 0) + successes oks.
Proof.
  unfold successes. change (ok :: oks) with ([ok] ++ oks).
  rewrite filter_app, length_app, Nat2Z.inj_add. destruct ok; simpl; lia.
Qed.

Lemma numbers_from_snoc (n : Z) (oks : list bool) (ok : bool) :
  numbers_from n (oks ++ [ok]) = numbers_from n oks ++ [n + successes oks].
Proof.
  revert n. induction oks as [|ok0 oks IH]; intros n; simpl.
  - f_equal. unfold successes. simpl. lia.
  - rewrite IH, successes_cons. f_equal. f_equal. f_equal. destruct ok0; lia.
Qed.

Lemma accounted_start (run_number now : Z) (w : World) :
  accounted (sends w) (m_td_queue_timeout_expired_err_count (mlt w))
    (start_run run_number now w).
Proof.
  destruct w as [m sends0 warnings0 errors0 exited0 returned0]. destruct m.
  exists []. simpl. rewrite app_nil_r. unfold successes, failures. simpl.
  repeat split; lia.
Qed.

Lemma accounted_step (base : list (TriggerDecision.t * bool)) (ec0 : Z)
    (e : Event) (w w' : World) :
  step e w = Some w' -> accounted base ec0 w -> accounted base ec0 w'.
Proof.
  intros Hstep (new & Hs & Hn & Htn & Hsc & Hec & Hrc & Htc).
  pose proof (step_log e w w' Hstep) as Hlog.
  destruct (attempts e w) as [[tc ok]|].
  - destruct Hlog as (Hs' & Htn' & Hsc' & Hec' & Hrc' & Htc' & Hpc' & Hic').
    exists (new ++ [(fst (create_decision tc (mlt w)), ok)]).
    rewrite !map_app. simpl map.
    rewrite successes_snoc, failures_snoc, numbers_from_snoc.
    split; [by rewrite Hs', Hs, app_assoc|].
    split; [rewrite Hn, DecisionLoopFacts.create_decision_trigger_number, Htn;
            f_equal; f_equal; lia|].
    destruct ok; repeat split; lia.
  - destruct Hlog as (Hs' & Htn' & Hsc' & Hec' & Htc' & Hrc' & Hpc' & Hic').
    exists new. split; [congruence|]. split; [exact Hn|].
    destruct (m_paused (mlt w)); repeat split; lia.
Qed.

Lemma accounted_run (base : list (TriggerDecision.t * bool)) (ec0 : Z)
    (evs : list Event) (w w' : World) :
  run evs w = Some w' -> accounted base ec0 w -> accounted base ec0 w'.
Proof.
  intros Hrun. apply (run_keeps (fun _ => true) (accounted base ec0)) with evs; try done.
  - intros e w1 w2 _. apply accounted_step.
  - clear Hrun. induction evs as [|e evs IH]; [reflexivity | exact IH].
Qed.

Lemma get_info_counters (i : Monitoring.Info) (t1 t2 t3 : Z) (m : ModuleLevelTrigger.t) :
  Monitoring.tc_received_count (Monitoring.get_info i t1 t2 t3 m) = m_tc_received_count m
  /\ Monitoring.td_sent_count (Monitoring.get_info i t1 t2 t3 m) = m_td_sent_count m
  /\ Monitoring.td_inhibited_count (Monitoring.get_info i t1 t2 t3 m) = m_td_inhibited_count m
  /\ Monitoring.td_paused_count (Monitoring.get_info i t1 t2 t3 m) = m_td_paused_count m
  /\ Monitoring.td_total_count (Monitoring.get_info i t1 t2 t3 m) = m_td_total_count m.
Proof. unfold Monitoring.get_info. by destruct (m_livetime_counter m). Qed.

(** The counters between two passes of a run of uninterrupted passes: the
    record [get_info] builds from them has
    [tc_received_count = td_total_count], and the total is the sum of the
    sent, paused and inhibited counts and of the number of sends that have
    failed since the start.  The failure counter of the module is not reset
    by the start of a run: it stands at its old value plus those failures.
    What the counters are in the middle of a pass is in module
    [InterleavingFacts]. *)
Theorem monitoring_accounts_for_every_candidate
    (i0 : Monitoring.Info) (t1 t2 t3 : Z) (run_number now : Z)
    (w : World) (evs : list Event) :
  exists (w' : World) (new : list (TriggerDecision.t * bool)),
    run evs (start_run run_number now w) = Some w'
    /\ sends w' = sends w ++ new
    /\ (let i := Monitoring.get_info i0 t1 t2 t3 (mlt w') in
        Monitoring.tc_received_count i = Monitoring.td_total_count i
        /\ Monitoring.td_total_count i
           = Monitoring.td_sent_count i + Monitoring.td_paused_count i
             + Monitoring.td_inhibited_count i + failures (map snd new)
        /\ Monitoring.td_sent_count i = successes (map snd new))
    /\ m_td_queue_timeout_expired_err_count (mlt w')
       = m_td_queue_timeout_expired_err_count (mlt w) + failures (map snd new).
Proof.
  destruct (run_total evs (start_run run_number now w) (start_run_counter _ _ _))
    as (w' & Hrun & _).
  destruct (accounted_run _ _ evs _ w' Hrun (accounted_start run_number now w))
    as (new & Hs & _ & _ & Hsc & Hec & Hrc & Htc).
  exists w', new. split; [exact Hrun|]. split; [exact Hs|]. split; [|exact Hec].
  cbv zeta.
  destruct (get_info_counters i0 t1 t2 t3 (mlt w')) as (-> & -> & -> & -> & ->).
  repeat split; assumption.
Qed.

Lemma numbers_from_lookup (new : list (TriggerDecision.t * bool)) :
  map TriggerDecision.trigger_number (map fst new) = numbers_from 1 (map snd new) ->
  forall (i : nat) (d : TriggerDecision.t) (ok : bool),
    new !! i = Some (d, ok) ->
    TriggerDecision.trigger_number d = 1 + successes (map snd (take i new)).
Proof.
  induction new as [|s new IH] using rev_ind; intros Hn i d ok Hi.
  - by rewrite lookup_nil in Hi.
  - rewrite !map_app in Hn. simpl in Hn. rewrite numbers_from_snoc in Hn.
    apply app_inj_tail in Hn as [Hn Hlast].
    destruct (decide (i < length new)%nat) as [Hlt|Hge].
    + rewrite lookup_app_l in Hi by exact Hlt.
      rewrite take_app_le by lia. by apply (IH Hn i d ok).
    + rewrite lookup_app_r in Hi by lia.
      destruct (i - length new)%nat eqn:Hi0; simpl in Hi; [|by rewrite lookup_nil in Hi].
      injection Hi as ->. assert (i = length new) by lia. subst i.
      rewrite take_app_length. simpl in Hlast. exact Hlast.
Qed.

(** The trigger number of a decision whose send failed is used again.  Of
    the decisions handed to the sender in a run, delivered or not, the
    first carries number 1 and each one carries the number of the one
    before it, plus 1 if that one was delivered: every decision carries 1
    plus the number of sends that succeeded before it. *)
Theorem failed_send_number_is_reused
    (run_number now : Z) (w : World) (evs : list Event) :
  exists (w' : World) (new : list (TriggerDecision.t * bool)),
    run evs (start_run run_number now w) = Some w'
    /\ sends w' = sends w ++ new
    /\ map TriggerDecision.trigger_number (map fst new) = numbers_from 1 (map snd new)
    /\ (forall (i : nat) (d : TriggerDecision.t) (ok : bool),
          new !! i = Some (d, ok) ->
          TriggerDecision.trigger_number d = 1 + successes (map snd (take i new)))
    /\ m_last_trigger_number (mlt w') = successes (map snd new).
Proof.
  destruct (run_total evs (start_run run_number now w) (start_run_counter _ _ _))
    as (w' & Hrun & _).
  destruct (accounted_run _ _ evs _ w' Hrun (accounted_start run_number now w))
    as (new & Hs & Hn & Htn & _).
  exists w', new. repeat split; try assumption.
  by apply numbers_from_lookup.
Qed.

Lemma failed_send_number_is_reused_witness :
  exists (w' : World) (new : list (TriggerDecision.t * bool)),
    run [Resume 1010; Iteration (Some Scenario.candidate) true;
         Iteration (Some Scenario.candidate) false;
         Iteration (Some Scenario.candidate) true] (Scenario.started false) = Some w'
    /\ map snd new = [true; false; true]
    /\ map TriggerDecision.trigger_number (map fst new) = [1; 2; 2].
Proof.
  destruct (failed_send_number_is_reused 7 1000 (Scenario.configured false)
              [Resume 1010; Iteration (Some Scenario.candidate) true;
               Iteration (Some Scenario.candidate) false;
               Iteration (Some Scenario.candidate) true])
    as (w' & new & Hrun & Hs & Hn & _ & _).
  exists w', new. split; [exact Hrun|].
  vm_compute in Hrun. injection Hrun as <-. simpl in Hs. subst new.
  split; [reflexivity | exact Hn].
Defined.




Lemma attempts_paused (e : Event) (w : World) :
  m_paused (mlt w) = true -> attempts e w = None.
Proof.
  intros Hp. destruct e as [[tc|] ok | | | | |]; simpl; try reflexivity.
  rewrite Hp. by rewrite andb_false_r.
Qed.


(** A run starts with triggers disabled and stays so until
    [enable_triggers]: whatever happens in a run before the first resume
    command, nothing is handed to the sender, and every candidate received
    is counted as paused, none as sent or inhibited, a busy notification
    for the run notwithstanding. *)
Theorem nothing_is_sent_before_enable_triggers
    (run_number now : Z) (w : World) (evs : list Event) :
  forallb (fun e => negb (is_resume e)) evs = true ->
  exists w' : World,
    run evs (start_run run_number now w) = Some w'
    /\ sends w' = sends w
    /\ m_paused (mlt w') = true
    /\ m_last_trigger_number (mlt w') = 0
    /\ m_td_sent_count (mlt w') = 0
    /\ m_td_inhibited_count (mlt w') = 0
    /\ m_td_paused_count (mlt w') = m_tc_received_count (mlt w')
    /\ m_td_total_count (mlt w') = m_tc_received_count (mlt w').
Proof.
  intros Hevs.
  destruct (run_total evs (start_run run_number now w) (start_run_counter _ _ _))
    as (w' & Hrun & _).
  exists w'. split; [exact Hrun|].
  apply (run_keeps (fun e => negb (is_resume e))
           (fun w1 => sends w1 = sends w
                      /\ m_paused (mlt w1) = true
                      /\ m_last_trigger_number (mlt w1) = 0
                      /\ m_td_sent_count (mlt w1) = 0
                      /\ m_td_inhibited_count (mlt w1) = 0
                      /\ m_td_paused_count (mlt w1) = m_tc_received_count (mlt w1)
                      /\ m_td_total_count (mlt w1) = m_tc_received_count (mlt w1)))
    with evs (start_run run_number now w); try assumption.
  - intros e w1 w2 He Hstep (Hs & Hp & Htn & Hsc & Hic & Hpc & Htc).
    pose proof (step_log e w1 w2 Hstep) as Hlog.
    rewrite (attempts_paused e w1 Hp), Hp in Hlog.
    destruct Hlog as (Hs' & Htn' & Hsc' & _ & Htc' & _ & Hpc' & Hic').
    destruct (step_flags e w1 w2 Hstep) as [Hp' _].
    split; [congruence|]. split; [|repeat split; lia].
    rewrite Hp'. by destruct e.
  - destruct w as [m sends0 warnings0 errors0 exited0 returned0]. destruct m.
    simpl. by repeat split.
Qed.

Lemma nothing_is_sent_before_enable_triggers_witness :
  exists w' : World,
    run [Iteration (Some Scenario.candidate) true;
         Inhibit (TriggerInhibit.mk false 7) 1010; Pause 1020;
         Iteration (Some Scenario.candidate) true] (Scenario.started false) = Some w'
    /\ sends w' = []
    /\ m_td_paused_count (mlt w') = m_tc_received_count (mlt w').
Proof.
  destruct (nothing_is_sent_before_enable_triggers 7 1000 (Scenario.configured false)
              [Iteration (Some Scenario.candidate) true;
               Inhibit (TriggerInhibit.mk false 7) 1010; Pause 1020;
               Iteration (Some Scenario.candidate) true] eq_refl)
    as (w' & Hrun & Hs & _ & _ & _ & _ & Hpc & _).
  exists w'. split; [exact Hrun|]. split; [exact Hs | exact Hpc].
Defined.



(** Outside a run there is no livetime counter, and what needs one fails.
    [do_stop] releases the counter; on the module it leaves, the pause
    and resume commands and an inhibit message for the run just stopped
    dereference the null pointer, while a message for another run number
    returns without touching anything.  [do_start] creates a counter,
    after which the commands, the callback and the stop of the new run
    succeed again. *)
Theorem commands_need_the_livetime_counter
    (m m' : ModuleLevelTrigger.t) (t1 t2 now : Z) (inhibit : TriggerInhibit.t) :
  do_stop_after_join t1 t2 m = Some m' ->
  m_livetime_counter m' = None
  /\ m_run_number m' = m_run_number m
  /\ do_pause now m' = None
  /\ do_resume now m' = None
  /\ dfo_busy_callback now inhibit m'
     = (if TriggerInhibit.run_number inhibit =? m_run_number m then None else Some m')
  /\ (forall run : Z,
        is_Some (do_pause now (do_start run now m'))
        /\ is_Some (do_resume now (do_start run now m'))
        /\ is_Some (dfo_busy_callback now inhibit (do_start run now m'))
        /\ is_Some (do_stop_after_join t1 t2 (do_start run now m'))).
Proof.
  unfold do_stop_after_join. destruct m. simpl.
  destruct m_livetime_counter0 as [lc|]; simpl; [|discriminate].
  intros [= <-]. unfold dfo_busy_callback. simpl.
  repeat split; try (by eexists).
  destruct (_ =? _); by eexists.
Qed.

Lemma commands_need_the_livetime_counter_witness :
  exists m' : ModuleLevelTrigger.t,
    do_stop_after_join 1050 1050 (mlt (Scenario.started false)) = Some m'
    /\ do_pause 1060 m' = None
    /\ dfo_busy_callback 1060 (TriggerInhibit.mk true 7) m' = None.
Proof.
  eexists. split; [vm_compute; reflexivity|].
  match goal with
  | |- do_pause _ ?m' = _ /\ _ =>
      destruct (commands_need_the_livetime_counter (mlt (Scenario.started false)) m'
                  1050 1050 1060 (TriggerInhibit.mk true 7) eq_refl)
        as (_ & _ & Hp & _ & Hcb & _)
  end.
  split; [exact Hp | exact Hcb].
Defined.

Lemma run_two (e1 e2 : Event) (w w1 w2 : World) :
  step e1 w = Some w1 -> step e2 w1 = Some w2 -> run [e1; e2] w = Some w2.
Proof. intros H1 H2. simpl. rewrite H1. simpl. by rewrite H2. Qed.

(** The livetime counter does not follow the busy flag down.  An inhibit
    message for the active run moves the counter to Dead whatever its busy
    value.  When the value is [false] and triggers are enabled, the next
    candidate is handed to the sender as usual, with the counter still in
    Dead. *)
Theorem idle_message_marks_dead_while_sending
    (w : World) (inhibit : TriggerInhibit.t) (now : Z) (tc : TriggerCandidate.t)
    (send_ok : bool) :
  is_Some (m_livetime_counter (mlt w)) ->
  loop_exited w = false ->
  m_paused (mlt w) = false ->
  TriggerInhibit.run_number inhibit = m_run_number (mlt w) ->
  TriggerInhibit.busy inhibit = false ->
  exists w1 w2 : World,
    step (Inhibit inhibit now) w = Some w1
    /\ m_dfo_is_busy (mlt w1) = false
    /\ gate_state (mlt w1) = Some LivetimeCounter.kDead
    /\ step (Iteration (Some tc) send_ok) w1 = Some w2
    /\ sends w2 = sends w ++ [(fst (create_decision tc (mlt w)), send_ok)]
    /\ gate_state (mlt w2) = Some LivetimeCounter.kDead.
Proof.
  intros [lc0 Hlc] Hex Hp Hrun Hb.
  destruct inhibit as [b r]. simpl in Hrun, Hb. subst b r.
  destruct w as [m sends0 warnings0 errors0 exited0 returned0].
  destruct m as [tn rn ls hp ts cf pa ru bu lc rc sc ic pc tc0 ec kl kp kd klc kpc kdc dt].
  simpl in *. subst.
  destruct hp; [destruct (type tc) eqn:Ht|]; destruct send_ok;
    (eexists _, _; unfold dfo_busy_callback; simpl; rewrite Z.eqb_refl; simpl;
     split; [reflexivity|]; split; [reflexivity|]; split; [reflexivity|];
     unfold create_decision; simpl; rewrite ?Ht; simpl;
     split; [reflexivity|]; by split).
Qed.

Lemma idle_message_marks_dead_while_sending_witness :
  exists w w2 : World,
    run [Resume 1010] (Scenario.started false) = Some w
    /\ run [Inhibit (TriggerInhibit.mk false 7) 1020;
            Iteration (Some Scenario.candidate) true] w = Some w2
    /\ length (sends w2) = 1%nat
    /\ gate_state (mlt w2) = Some LivetimeCounter.kDead.
Proof.
  eexists.
  match goal with
  | |- exists w', run ?evs ?w0 = Some ?w /\ _ =>
      assert (Hrun : run evs w0 = Some w) by (vm_compute; reflexivity)
  end.
  match type of Hrun with
  | _ = Some ?w =>
      assert (Hlc : is_Some (m_livetime_counter (mlt w))) by (by eexists);
      destruct (idle_message_marks_dead_while_sending w (TriggerInhibit.mk false 7) 1020
                  Scenario.candidate true Hlc eq_refl eq_refl eq_refl eq_refl)
        as (w1 & w2 & Hs1 & _ & _ & Hs2 & Hsends & Hgate)
  end.
  exists w2. split; [exact Hrun|].
  split; [exact (run_two _ _ _ _ _ Hs1 Hs2)|].
  split; [by rewrite Hsends | exact Hgate].
Defined.

(** Nor does it follow the flag up.  [enable_triggers] moves the counter to
    Live and lowers the pause flag, but leaves the busy flag alone: resumed
    while the busy flag is up, the module counts the next candidate as
    inhibited and hands nothing to the sender, with the counter in Live. *)
Theorem resume_while_busy_reads_live
    (w : World) (now : Z) (tc : TriggerCandidate.t) (send_ok : bool) :
  is_Some (m_livetime_counter (mlt w)) ->
  loop_exited w = false ->
  m_dfo_is_busy (mlt w) = true ->
  exists w1 w2 : World,
    step (Resume now) w = Some w1
    /\ m_paused (mlt w1) = false
    /\ gate_state (mlt w1) = Some LivetimeCounter.kLive
    /\ step (Iteration (Some tc) send_ok) w1 = Some w2
    /\ sends w2 = sends w
    /\ m_td_inhibited_count (mlt w2) = m_td_inhibited_count (mlt w) + 1
    /\ gate_state (mlt w2) = Some LivetimeCounter.kLive.
Proof.
  intros [lc0 Hlc] Hex Hb.
  destruct w as [m sends0 warnings0 errors0 exited0 returned0].
  destruct m as [tn rn ls hp ts cf pa ru bu lc rc sc ic pc tc0 ec kl kp kd klc kpc kdc dt].
  simpl in *. subst.
  eexists _, _. split; [reflexivity|]. split; [reflexivity|]. split; [reflexivity|].
  simpl. split; [reflexivity|]. by repeat split.
Qed.

Lemma resume_while_busy_reads_live_witness :
  exists w w2 : World,
    run [Inhibit (TriggerInhibit.mk true 7) 1010] (Scenario.started false) = Some w
    /\ run [Resume 1020; Iteration (Some Scenario.candidate) true] w = Some w2
    /\ sends w2 = []
    /\ gate_state (mlt w2) = Some LivetimeCounter.kLive.
Proof.
  eexists.
  match goal with
  | |- exists w', run ?evs ?w0 = Some ?w /\ _ =>
      assert (Hrun : run evs w0 = Some w) by (vm_compute; reflexivity)
  end.
  match type of Hrun with
  | _ = Some ?w =>
      assert (Hlc : is_Some (m_livetime_counter (mlt w))) by (by eexists);
      destruct (resume_while_busy_reads_live w 1020 Scenario.candidate true
                  Hlc eq_refl eq_refl)
        as (w1 & w2 & Hs1 & _ & _ & Hs2 & Hsends & _ & Hgate)
  end.
  exists w2. split; [exact Hrun|].
  split; [exact (run_two _ _ _ _ _ Hs1 Hs2)|].
  split; [exact Hsends | exact Hgate].
Defined.

End RunFacts.

(** ** The ordering of the TPSet buffer *)

Module TPSetCmpFacts.

Import BufferManager.

(** [TPSetCmp] is a strict weak ordering, which is what [std::set] asks of
    its comparison: no interval is before itself, of two intervals at most
    one is before the other, "before" is transitive, and so is the
    equivalence of intervals neither of which is before the other. *)
Theorem TPSetCmp_strict_weak_order (a b c : TPSet) :
  TPSetCmp a a = false
  /\ (TPSetCmp a b = true -> TPSetCmp b a = false)
  /\ (TPSetCmp a b = true -> TPSetCmp b c = true -> TPSetCmp a c = true)
  /\ (equivalent a b = true -> equivalent b c = true -> equivalent a c = true)
  /\ (TPSetCmp a b = true -> equivalent b c = true -> TPSetCmp a c = true).
Proof.
  unfold equivalent, TPSetCmp. repeat split; intros; lia.
Qed.

Lemma TPSetCmp_strict_weak_order_witness :
  TPSetCmp (Scenario.interval 10) (Scenario.interval 30) = true
  /\ equivalent (Scenario.interval 10) (mkTPSet 10 99 [7]) = true.
Proof.
  destruct (TPSetCmp_strict_weak_order (Scenario.interval 10) (Scenario.interval 20)
              (Scenario.interval 30)) as (_ & _ & Htrans & _).
  destruct (TPSetCmp_strict_weak_order (Scenario.interval 10) (Scenario.interval 10)
              (mkTPSet 10 99 [7])) as (_ & _ & _ & Heq & _).
  split; [apply Htrans; reflexivity | apply Heq; reflexivity].
Defined.

End TPSetCmpFacts.

(** ** The decision loop, statement by statement *)

Module InterleavingFacts.

Import ModuleLevelTrigger Interleaving.

(** A pass of [ModuleLevelTrigger.step] is a pass of the thread that
    nothing interrupts: taken from the poll to the end of the pass, the
    steps of the thread leave the world the pass leaves, with the thread
    back at the poll, or out of the loop if the pass ended in [break]. *)
Lemma uninterrupted_pass (poll : option TriggerCandidate.t) (send_ok : bool) (w : World) :
  loop_exited w = false ->
  ModuleLevelTrigger.step (Iteration poll send_ok) w
  = Some (world (finish_pass 7 poll send_ok (mkState w AtPoll)))
  /\ pc (finish_pass 7 poll send_ok (mkState w AtPoll))
     = if loop_exited (world (finish_pass 7 poll send_ok (mkState w AtPoll)))
       then Exited else AtPoll.
Proof.
  destruct w as [m sends0 warnings0 errors0 exited0 returned0].
  destruct m as [tn rn ls hp ts cf pa ru bu lc rc sc ic pc tc0 ec kl kp kd klc kpc kdc dt].
  intros Hex. simpl in Hex. subst exited0.
  destruct poll as [[t0 t1 t2 de ty al ve ta]|].
  - destruct pa; [split; reflexivity|].
    destruct bu; [split; reflexivity|].
    destruct hp; [destruct ty|]; destruct send_ok; split; reflexivity.
  - destruct ru; split; reflexivity.
Qed.

(** [do_resume] between the two loads of [m_paused].  The module is paused
    and not busy; a candidate is received and the load in the [if] sees
    the pause flag up; the resume command runs; the load in the [else if]
    sees the flag down.  The pass ends in the last branch: a
    [TriggerInhibited] warning and the inhibited counter up by 1, with the
    busy flag down all along; the pause counter does not move and nothing
    is handed to the sender. *)
Lemma resume_between_the_loads
    (w : World) (tc : TriggerCandidate.t) (now : Z) (send_ok : bool) :
  is_Some (m_livetime_counter (mlt w)) ->
  m_paused (mlt w) = true ->
  m_dfo_is_busy (mlt w) = false ->
  exists s' : State,
    Interleaving.run
      [Tick (Some tc) send_ok; Tick None send_ok; Other (AResume now);
       Tick None send_ok; Tick None send_ok; Tick None send_ok]
      (mkState w AtPoll) = Some s'
    /\ pc s' = AtPoll
    /\ m_dfo_is_busy (mlt (world s')) = false
    /\ m_td_inhibited_count (mlt (world s')) = m_td_inhibited_count (mlt w) + 1
    /\ warnings (world s') = warnings w ++ [m_run_number (mlt w)]
    /\ m_td_paused_count (mlt (world s')) = m_td_paused_count (mlt w)
    /\ sends (world s') = sends w
    /\ m_tc_received_count (mlt (world s')) = m_tc_received_count (mlt w) + 1
    /\ m_td_total_count (mlt (world s')) = m_td_total_count (mlt w) + 1.
Proof.
  intros [lc0 Hlc] Hp Hb.
  destruct w as [m sends0 warnings0 errors0 exited0 returned0].
  destruct m as [tn rn ls hp ts cf pa ru bu lc rc sc ic pc tc0 ec kl kp kd klc kpc kdc dt].
  simpl in *. subst. eexists. split; [reflexivity|]. simpl. by repeat split.
Qed.

(** C5.  The code at the input that breaks the claim.  Run 7 has just
    started: triggers are paused and the busy flag is down.  A candidate is
    received; the load of [m_paused] in the [if] returns true; the
    [enable_triggers] command stores false; the load of [m_paused] in the
    [else if] returns false.  The pass takes the last branch, the one whose
    log line reads "The DFO is busy": one [TriggerInhibited] warning for run
    7, inhibited counter 1, pause counter 0, nothing handed to the sender,
    busy flag still down, received and total 1. *)
Theorem racing_resume_is_counted_inhibited :
  (s ← Interleaving.run
         [Tick (Some Scenario.candidate) true; Tick None true; Other (AResume 1010);
          Tick None true; Tick None true; Tick None true]
         (Interleaving.start 7 1000 (Scenario.configured false));
   Some (pc s, m_dfo_is_busy (mlt (world s)),
         (m_td_paused_count (mlt (world s)), m_td_inhibited_count (mlt (world s))),
         warnings (world s), sends (world s),
         (m_tc_received_count (mlt (world s)), m_td_total_count (mlt (world s)))))
  = Some (AtPoll, false, (0, 1), [7], [], (1, 1)).
Proof. vm_compute. reflexivity. Qed.







End InterleavingFacts.
